(** * scripts/oc_example.py: a shallow embedding

    The script wraps the [oc] command-line binary: every operation is one
    subprocess call or a short fixed sequence of them.  The embedding keeps
    the script's own control flow and makes its effects explicit:

    - the subprocess calls made so far, in order ([calls]);
    - the records the module-level logger has emitted ([logs]);
    - how often the argument parser printed its help ([help_printed]);
    - Python exceptions that leave a function ([Raise]), among them the
      [SystemExit] of [sys.exit].

    What the script takes from outside is a parameter of the development:
    the behaviour of the [oc] binary, [json.loads], the builtin [str] and
    what [parser.parse_args()] makes of a command line.  A [str] is a
    [string]; whitespace and length are those of ASCII text. *)

From Stdlib Require Import ZArith List String Ascii Bool Lia DecimalString.
Import ListNotations.
#[local] Set Warnings "-register-all".
Local Open Scope string_scope.
Local Open Scope Z_scope.
Local Open Scope list_scope.

(** ** Strings *)

(** [str.isspace] on the ASCII range: tab, line feed, vertical tab, form
    feed, carriage return, the four separators 0x1c-0x1f and space. *)
Definition isspace (c : ascii) : bool :=
  let n := nat_of_ascii c in
  (Nat.leb 9 n && Nat.leb n 13) || (Nat.leb 28 n && Nat.leb n 32).

Fixpoint lstrip (s : string) : string :=
  match s with
  | EmptyString => EmptyString
  | String c rest => if isspace c then lstrip rest else s
  end.

Fixpoint rstrip (s : string) : string :=
  match s with
  | EmptyString => EmptyString
  | String c rest =>
      match rstrip rest with
      | EmptyString => if isspace c then EmptyString else String c EmptyString
      | kept => String c kept
      end
  end.

(** [s.strip()] *)
Definition strip (s : string) : string := rstrip (lstrip s).

(** [' '.join(parts)] *)
Definition join_spaces (parts : list string) : string := String.concat " " parts.

(** [f"{n}"] for the result of [len]. *)
Definition str_of_nat (n : nat) : string := NilEmpty.string_of_uint (Nat.to_uint n).

(** ** Values decoded from JSON *)

(** What [json.loads] returns.  A dict is kept as its items in insertion
    order, one entry per key; a float as its [repr], which also holds
    [nan], [inf] and [-inf], the values of the literals [NaN], [Infinity]
    and [-Infinity] that [json.loads] accepts. *)
Inductive pyval : Type :=
| PNone
| PBool (b : bool)
| PInt (z : Z)
| PFloat (repr : string)
| PStr (s : string)
| PList (items : list pyval)
| PDict (entries : list (string * pyval)).

Fixpoint dict_lookup (key : string) (entries : list (string * pyval)) : option pyval :=
  match entries with
  | [] => None
  | (k, v) :: rest => if String.eqb k key then Some v else dict_lookup key rest
  end.

(** [bool(v)] *)
Definition py_truthy (v : pyval) : bool :=
  match v with
  | PNone => false
  | PBool b => b
  | PInt z => negb (z =? 0)
  | PFloat r => negb (String.eqb r "0.0" || String.eqb r "-0.0")
  | PStr s => negb (String.eqb s "")
  | PList items => match items with [] => false | _ => true end
  | PDict entries => match entries with [] => false | _ => true end
  end.

(** [v == s] for a [str] s: only an equal [str] compares equal. *)
Definition py_eq_str (v : pyval) (s : string) : bool :=
  match v with
  | PStr t => String.eqb t s
  | _ => false
  end.

Fixpoint chars (s : string) : list pyval :=
  match s with
  | EmptyString => []
  | String c rest => PStr (String c EmptyString) :: chars rest
  end.

(** ** The process: world, exceptions, monad *)

Inductive Level : Type := DEBUG | INFO | WARNING | ERROR.

Definition levelno (l : Level) : Z :=
  match l with DEBUG => 10 | INFO => 20 | WARNING => 30 | ERROR => 40 end.

Record World : Type := mkWorld {
  calls : list (list string);       (* argv of every subprocess.run so far *)
  logs : list (Level * string);     (* records emitted by the logger *)
  help_printed : nat                (* calls of print_help() of a parser *)
}.

Definition initial : World := mkWorld [] [] 0.

Inductive PyExn : Type :=
| SystemExit (code : Z)
| AttributeError
| TypeError
| RecursionError
| ValueError.

Inductive res (A : Type) : Type :=
| Ret (a : A)
| Raise (e : PyExn).
Arguments Ret {A} a.
Arguments Raise {A} e.

Definition M (A : Type) : Type := World -> res A * World.

Definition ret {A} (a : A) : M A := fun w => (Ret a, w).

Definition raise {A} (e : PyExn) : M A := fun w => (Raise e, w).

Definition bind {A B} (m : M A) (k : A -> M B) : M B :=
  fun w =>
    match m w with
    | (Ret a, w') => k a w'
    | (Raise e, w') => (Raise e, w')
    end.

Declare Scope py_scope.
Delimit Scope py_scope with py.
Notation "x <- m ;; k" := (bind m (fun x => k))
  (at level 61, m at next level, right associativity) : py_scope.
Notation "' p <- m ;; k" := (bind m (fun x => match x with p => k end))
  (at level 61, p pattern, m at next level, right associativity) : py_scope.
Notation "m ;; k" := (bind m (fun _ => k))
  (at level 61, right associativity) : py_scope.
Local Open Scope py_scope.

(** [for x in xs: body(x)] *)
Fixpoint for_each {A} (xs : list A) (body : A -> M unit) : M unit :=
  match xs with
  | [] => ret tt
  | x :: rest => body x ;; for_each rest body
  end.

(** [any(test(x) for x in xs)]: the generator is consumed up to the first
    true element. *)
Fixpoint py_any {A} (xs : list A) (test : A -> M bool) : M bool :=
  match xs with
  | [] => ret false
  | x :: rest => b <- test x ;; if b then ret true else py_any rest test
  end.

(** [logging.basicConfig(level=logging.INFO)]: a record below INFO is
    dropped, the others are appended to the output. *)
Definition logger (l : Level) (msg : string) : M unit :=
  fun w =>
    if levelno INFO <=? levelno l
    then (Ret tt, mkWorld (calls w) (logs w ++ [(l, msg)]) (help_printed w))
    else (Ret tt, w).

(** [parser.print_help()] *)
Definition print_help : M unit :=
  fun w => (Ret tt, mkWorld (calls w) (logs w) (S (help_printed w))).

(** [sys.exit(code)] *)
Definition sys_exit {A} (code : Z) : M A := raise (SystemExit code).

(** [v.get(key, default)]: only a dict has the method. *)
Definition py_get (v : pyval) (key : string) (default : pyval) : M pyval :=
  match v with
  | PDict entries =>
      ret (match dict_lookup key entries with Some x => x | None => default end)
  | _ => raise AttributeError
  end.

(** [len(v)] *)
Definition py_len (v : pyval) : M nat :=
  match v with
  | PList items => ret (List.length items)
  | PDict entries => ret (List.length entries)
  | PStr s => ret (String.length s)
  | _ => raise TypeError
  end.

(** [iter(v)]: a list yields its items, a dict its keys, a str its
    characters. *)
Definition py_iter (v : pyval) : M (list pyval) :=
  match v with
  | PList items => ret items
  | PDict entries => ret (map (fun kv => PStr (fst kv)) entries)
  | PStr s => ret (chars s)
  | _ => raise TypeError
  end.

(** The status the interpreter exits with: 0 when [main] returns, the code
    of a [SystemExit], 1 after a traceback. *)
Definition exit_status {A} (r : res A) : Z :=
  match r with
  | Ret _ => 0
  | Raise (SystemExit code) => code
  | Raise _ => 1
  end.

(** What one [subprocess.run(argv, capture_output=True, text=True)] does:
    the process runs, exits and its output is text; or it runs and exits
    but its output is not text in the encoding of the locale, and decoding
    it raises [UnicodeDecodeError]; or the call raises before there is an
    exit status (binary missing, not executable).  [message] is the [str]
    of the exception. *)
Inductive Outcome : Type :=
| Exited (returncode : Z) (stdout stderr : string)
| Undecodable (returncode : Z) (message : string)
| NotLaunched (message : string).

(** What [json.loads(text)] does: it returns a value, raises
    [json.JSONDecodeError], or raises something else ([RecursionError] on
    deeply nested text, [ValueError] on an integer with too many digits). *)
Inductive Loaded : Type :=
| Decoded (data : pyval)
| DecodeError
| LoadError (e : PyExn).

(** The subcommands the parser of [setup_argparse] knows. *)
Inductive Subcommand : Type :=
| ListUsers | CreateUser | DeleteUser | AddToGroup | ListGroups.

(** The name a subcommand is added to the parser with; [args.command]
    is this string. *)
Definition subcommand_name (c : Subcommand) : string :=
  match c with
  | ListUsers => "list-users"
  | CreateUser => "create-user"
  | DeleteUser => "delete-user"
  | AddToGroup => "add-to-group"
  | ListGroups => "list-groups"
  end.

(** The namespace [parser.parse_args()] returns.  [command] is [None]
    when no subcommand was given and one of the five subcommands otherwise
    (the parser accepts no other); [groups] is [None] without [--groups]
    and the list of names (possibly empty, for [nargs='*']) with it.  A
    field the chosen subcommand does not define is never read. *)
Record Namespace : Type := mkNamespace {
  command : option Subcommand;
  username : string;
  group : string;
  groups : option (list string)
}.

(** What [parser.parse_args()] does with a command line: it returns a
    namespace, or prints the help and exits with status 0 ([-h]), or
    reports a usage error on standard error and exits with status 2 (an
    unrecognized subcommand, a missing or unexpected argument). *)
Inductive Parsed : Type :=
| Parsed_args (args : Namespace)
| HelpExit
| UsageExit.

(** ** Sample surroundings, for the examples *)

Fixpoint argv_eqb (a b : list string) : bool :=
  match a, b with
  | [], [] => true
  | x :: a', y :: b' => String.eqb x y && argv_eqb a' b'
  | _, _ => false
  end.

(** A binary given by a table from argv to outcome, whatever was called
    before; a command that is not in the table exits with status 1. *)
Definition oc_table (table : list (list string * Outcome))
  : list (list string) -> list string -> Outcome :=
  fun _ argv =>
    match find (fun row => argv_eqb (fst row) argv) table with
    | Some row => snd row
    | None => Exited 1 "" "error: unknown command"
    end.

(** A decoder given by a table from text to value; any other text is
    rejected. *)
Definition loads_table (table : list (string * pyval)) : string -> Loaded :=
  fun text =>
    match find (fun row => String.eqb (fst row) text) table with
    | Some row => Decoded (snd row)
    | None => DecodeError
    end.

(** A rendering of values that is right on strings. *)
Definition str_plain (v : pyval) : string :=
  match v with
  | PStr s => s
  | PNone => "None"
  | PBool true => "True"
  | PBool false => "False"
  | _ => "<value>"
  end.

(** A cluster the user is logged in to. *)
Definition logged_in : list (list string * Outcome) :=
  [ (["oc"; "whoami"], Exited 0 "admin" "");
    (["oc"; "project"], Exited 0 "Using project default" "") ].

(** The double quote of JSON texts. *)
Definition dq : string := String (ascii_of_nat 34) EmptyString.

(** The text of a list with the one user [name], and its decoding. *)
Definition listing_text (name : string) : string :=
  "{" ++ dq ++ "items" ++ dq ++ ":[{" ++ dq ++ "metadata" ++ dq ++ ":{"
      ++ dq ++ "name" ++ dq ++ ":" ++ dq ++ name ++ dq ++ "}}]}".

Definition listing (name : string) : pyval :=
  PDict [("items", PList [PDict [("metadata", PDict [("name", PStr name)])]])].

(** An object whose [items] is [null]. *)
Definition null_items_text : string := "{" ++ dq ++ "items" ++ dq ++ ":null}".

Definition sample_loads : string -> Loaded :=
  loads_table
    [ (listing_text "alice", listing "alice");
      (listing_text "bob", listing "bob");
      (null_items_text, PDict [("items", PNone)]);
      ("{}", PDict []);
      ("[]", PList []) ].

(** [bob] can be created; group [qa] exists, group [dev] does not and
    cannot be created; the user list then shows [bob]. *)
Definition cluster : list (list string * Outcome) :=
  logged_in ++
  [ (["oc"; "create"; "user"; "bob"], Exited 0 "user.user.openshift.io/bob created" "");
    (["oc"; "get"; "group"; "qa"], Exited 0 "qa" "");
    (["oc"; "adm"; "groups"; "add-users"; "qa"; "bob"], Exited 0 "" "");
    (["oc"; "get"; "group"; "dev"], Exited 1 "" "Error from server (NotFound)");
    (["oc"; "adm"; "groups"; "new"; "dev"], Exited 1 "" "Error from server (Forbidden)");
    (["oc"; "get"; "users"; "-o"; "json"], Exited 0 (listing_text "bob") "") ].

(** The user list is a page of HTML, an empty object, an empty array. *)
Definition cluster_listing (text : string) : list (list string * Outcome) :=
  logged_in ++ [ (["oc"; "get"; "users"; "-o"; "json"], Exited 0 text "") ].

Definition no_subcommand : Namespace := mkNamespace None "" "" None.

Definition list_users : Namespace := mkNamespace (Some ListUsers) "" "" None.

Definition create_bob (groups : option (list string)) : Namespace :=
  mkNamespace (Some CreateUser) "bob" "" groups.

(** [bob] can be created, the users cannot be listed. *)
Definition cluster_without_list : list (list string * Outcome) :=
  logged_in ++
  [ (["oc"; "create"; "user"; "bob"], Exited 0 "user.user.openshift.io/bob created" "") ].

(** A JSON string. *)
Definition quoted (s : string) : string := dq ++ s ++ dq.

(** A group list: [dev] with two members, and a group that is an empty
    object. *)
Definition groups_text : string :=
  "{" ++ quoted "items" ++ ":[{" ++ quoted "metadata" ++ ":{" ++ quoted "name"
      ++ ":" ++ quoted "dev" ++ "}," ++ quoted "users" ++ ":[" ++ quoted "alice"
      ++ "," ++ quoted "bob" ++ "]},{}]}".

Definition groups_listing : pyval :=
  PDict [("items",
          PList [PDict [("metadata", PDict [("name", PStr "dev")]);
                        ("users", PList [PStr "alice"; PStr "bob"])];
                 PDict []])].

(** A user list: [carol], [bob], and then a number. *)
Definition mixed_text : string :=
  "{" ++ quoted "items" ++ ":[{" ++ quoted "metadata" ++ ":{" ++ quoted "name"
      ++ ":" ++ quoted "carol" ++ "}},{" ++ quoted "metadata" ++ ":{"
      ++ quoted "name" ++ ":" ++ quoted "bob" ++ "}},5]}".

Definition mixed_listing : pyval :=
  PDict [("items",
          PList [PDict [("metadata", PDict [("name", PStr "carol")])];
                 PDict [("metadata", PDict [("name", PStr "bob")])];
                 PInt 5])].

Definition more_loads : string -> Loaded :=
  loads_table [ (groups_text, groups_listing); (mixed_text, mixed_listing) ].

Definition cluster_groups : list (list string * Outcome) :=
  logged_in ++ [ (["oc"; "get"; "groups"; "-o"; "json"], Exited 0 groups_text "") ].

Definition cluster_mixed : list (list string * Outcome) :=
  logged_in ++
  [ (["oc"; "create"; "user"; "bob"], Exited 0 "user.user.openshift.io/bob created" "");
    (["oc"; "get"; "users"; "-o"; "json"], Exited 0 mixed_text "") ].

Definition list_groups : Namespace := mkNamespace (Some ListGroups) "" "" None.

Definition delete_carol : Namespace := mkNamespace (Some DeleteUser) "carol" "" None.

Definition add_dave_ops : Namespace := mkNamespace (Some AddToGroup) "dave" "ops" None.

(** A binary whose output is not text: [oc whoami] exits with status 0
    after printing the byte 0xff. *)
Definition binary_output : list (list string * Outcome) :=
  [ (["oc"; "whoami"],
     Undecodable 0
       "'utf-8' codec can't decode byte 0xff in position 0: invalid start byte") ].

(** Text nested 2000 brackets deep. *)
Definition deep_text : string := String.concat "" (repeat "[" 2000).

(** A user list that begins with a number: 5, then [bob]. *)
Definition number_first_text : string :=
  "{" ++ quoted "items" ++ ":[5,{" ++ quoted "metadata" ++ ":{"
      ++ quoted "name" ++ ":" ++ quoted "bob" ++ "}}]}".

Definition number_first_listing : pyval :=
  PDict [("items",
          PList [PInt 5; PDict [("metadata", PDict [("name", PStr "bob")])]])].

(** [json.loads] on the texts above: [NaN] is the float nan, the deep
    nesting exhausts the recursion limit. *)
Definition lenient_loads : string -> Loaded :=
  fun text =>
    if String.eqb text "NaN" then Decoded (PFloat "nan")
    else if String.eqb text deep_text then LoadError RecursionError
    else if String.eqb text number_first_text then Decoded number_first_listing
    else sample_loads text.

(** Both lists print [text]. *)
Definition cluster_lists (text : string) : list (list string * Outcome) :=
  logged_in ++
  [ (["oc"; "get"; "users"; "-o"; "json"], Exited 0 text "");
    (["oc"; "get"; "groups"; "-o"; "json"], Exited 0 text "") ].

(** [bob] can be created, and the user list then prints [text]. *)
Definition cluster_relist (text : string) : list (list string * Outcome) :=
  logged_in ++
  [ (["oc"; "create"; "user"; "bob"], Exited 0 "user.user.openshift.io/bob created" "");
    (["oc"; "get"; "users"; "-o"; "json"], Exited 0 text "") ].

(** The parser on some command lines; any other is a usage error. *)
Definition sample_parser : list string -> Parsed :=
  fun argv =>
    match find (fun row => argv_eqb (fst row) argv)
            [ ([], Parsed_args no_subcommand);
              (["-h"], HelpExit);
              (["list-users"], Parsed_args list_users);
              (["list-users"; "-h"], HelpExit);
              (["list-groups"], Parsed_args list_groups);
              (["create-user"; "bob"], Parsed_args (create_bob None));
              (["create-user"; "bob"; "--groups"], Parsed_args (create_bob (Some [])));
              (["delete-user"; "carol"], Parsed_args delete_carol);
              (["add-to-group"; "dave"; "ops"], Parsed_args add_dave_ops) ] with
    | Some row => snd row
    | None => UsageExit
    end.

Section Script.

(** The [oc] binary: the outcome of a call may depend on the calls made
    before it. *)
Variable oc : list (list string) -> list string -> Outcome.

(** [json.loads] *)
Variable json_loads : string -> Loaded.

(** The builtin [str], as an f-string applies it to a decoded value. *)
Variable py_str : pyval -> string.

(** The parser of [setup_argparse] on a command line ([sys.argv[1:]]). *)
Variable parser : list string -> Parsed.

Definition subprocess_run (argv : list string) : M Outcome :=
  fun w => (Ret (oc (calls w) argv),
            mkWorld (calls w ++ [argv]) (logs w) (help_printed w)).

(** ** The script *)

Definition run_oc_command (command : list string) : M (bool * string) :=
  let full_command := "oc" :: command in
  logger DEBUG ("Executing: " ++ join_spaces full_command) ;;
  result <- subprocess_run full_command ;;
  match result with
  | Exited returncode stdout stderr =>
      if returncode =? 0 then ret (true, stdout)
      else (* check=True: subprocess.CalledProcessError *)
        logger ERROR ("Command failed: " ++ join_spaces full_command) ;;
        logger ERROR ("Error: " ++ strip stderr) ;;
        ret (false, stderr)
  | Undecodable _ message | NotLaunched message =>
      (* except Exception *)
      logger ERROR ("Exception while running command: " ++ message) ;;
      ret (false, message)
  end.

Definition is_logged_in : M bool :=
  '(success, _) <- run_oc_command ["whoami"] ;;
  ret success.

Definition get_users : M pyval :=
  '(success, output) <- run_oc_command ["get"; "users"; "-o"; "json"] ;;
  if negb success then
    logger ERROR "Failed to get users" ;;
    ret (PList [])
  else
    match json_loads output with
    | Decoded data => py_get data "items" (PList [])
    | DecodeError =>
        logger ERROR "Failed to parse user data as JSON" ;;
        ret (PList [])
    | LoadError e => raise e
    end.

(** The body of the [for group in groups] loop of [create_user]; the
    [continue] after a failed group creation ends the iteration. *)
Definition create_user_group (username group : string) : M unit :=
  let add_user_step : M unit :=
    '(add_success, _) <-
       run_oc_command ["adm"; "groups"; "add-users"; group; username] ;;
    if add_success then
      logger INFO ("Added user '" ++ username ++ "' to group '" ++ group ++ "'")
    else
      logger WARNING
        ("Failed to add user '" ++ username ++ "' to group '" ++ group ++ "'") in
  '(group_success, _) <- run_oc_command ["get"; "group"; group] ;;
  if negb group_success then
    logger INFO ("Group '" ++ group ++ "' doesn't exist, creating it") ;;
    '(create_group_success, _) <-
       run_oc_command ["adm"; "groups"; "new"; group] ;;
    if negb create_group_success then
      logger WARNING ("Failed to create group '" ++ group ++ "'")
    else add_user_step
  else add_user_step.

Definition create_user (username : string) (groups : option (list string)) : M bool :=
  '(success, output) <- run_oc_command ["create"; "user"; username] ;;
  if negb success then
    logger ERROR ("Failed to create user '" ++ username ++ "': " ++ output) ;;
    ret false
  else
    logger INFO ("User '" ++ username ++ "' created successfully") ;;
    match groups with
    | Some (g :: rest) =>          (* if groups: a non-empty list *)
        for_each (g :: rest) (create_user_group username)
    | _ => ret tt                  (* None and [] are false *)
    end ;;
    ret true.

Definition delete_user (username : string) : M bool :=
  '(success, output) <- run_oc_command ["delete"; "user"; username] ;;
  if negb success then
    logger ERROR ("Failed to delete user '" ++ username ++ "': " ++ output) ;;
    ret false
  else
    logger INFO ("User '" ++ username ++ "' deleted successfully") ;;
    ret true.

Definition get_groups : M pyval :=
  '(success, output) <- run_oc_command ["get"; "groups"; "-o"; "json"] ;;
  if negb success then
    logger ERROR "Failed to get groups" ;;
    ret (PList [])
  else
    match json_loads output with
    | Decoded data => py_get data "items" (PList [])
    | DecodeError =>
        logger ERROR "Failed to parse group data as JSON" ;;
        ret (PList [])
    | LoadError e => raise e
    end.

Definition add_user_to_group (username group : string) : M bool :=
  let add_user_step : M bool :=
    '(add_success, output) <-
       run_oc_command ["adm"; "groups"; "add-users"; group; username] ;;
    if negb add_success then
      logger ERROR ("Failed to add user '" ++ username ++ "' to group '"
                    ++ group ++ "': " ++ output) ;;
      ret false
    else
      logger INFO ("Added user '" ++ username ++ "' to group '" ++ group ++ "'") ;;
      ret true in
  '(group_success, _) <- run_oc_command ["get"; "group"; group] ;;
  if negb group_success then
    logger INFO ("Group '" ++ group ++ "' doesn't exist, creating it") ;;
    '(create_group_success, _) <-
       run_oc_command ["adm"; "groups"; "new"; group] ;;
    if negb create_group_success then
      logger ERROR ("Failed to create group '" ++ group ++ "'") ;;
      ret false
    else add_user_step
  else add_user_step.

Definition check_connection : M bool :=
  logged_in <- is_logged_in ;;
  if negb logged_in then
    logger ERROR "Not logged in to OpenShift cluster. Run 'oc login' first." ;;
    ret false
  else
    '(success, output) <- run_oc_command ["project"] ;;
    if negb success then
      logger ERROR "Failed to get current project" ;;
      ret false
    else
      logger INFO ("Connected to OpenShift. Current project: " ++ strip output) ;;
      ret true.

(** [args.command == name] *)
Definition command_is (args : Namespace) (name : string) : bool :=
  match command args with
  | Some c => String.eqb (subcommand_name c) name
  | None => false
  end.

(** [args.groups if args.groups else None] *)
Definition groups_or_none (given : option (list string)) : option (list string) :=
  match given with
  | Some (g :: rest) => Some (g :: rest)
  | _ => None
  end.

(** The part of [main] under [# Handle different commands]. *)
Definition handle_command (args : Namespace) : M unit :=
  if command_is args "list-users" then
    logger INFO "Getting list of users..." ;;
    users <- get_users ;;
    n <- py_len users ;;
    logger INFO ("Found " ++ str_of_nat n ++ " users") ;;
    if py_truthy users then
      logger INFO "User list:" ;;
      items <- py_iter users ;;
      for_each items (fun user =>
        metadata <- py_get user "metadata" (PDict []) ;;
        user_name <- py_get metadata "name" (PStr "Unknown") ;;
        logger INFO ("- " ++ py_str user_name))
    else ret tt
  else if command_is args "create-user" then
    let username := username args in
    let groups := groups_or_none (groups args) in
    logger INFO ("Creating user '" ++ username ++ "'...") ;;
    created <- create_user username groups ;;
    if created then
      logger INFO ("Successfully created user '" ++ username ++ "'") ;;
      users_after <- get_users ;;
      items <- py_iter users_after ;;
      user_created <- py_any items (fun user =>
        metadata <- py_get user "metadata" (PDict []) ;;
        name <- py_get metadata "name" PNone ;;
        ret (py_eq_str name username)) ;;
      if user_created then
        logger INFO ("Verified user '" ++ username ++ "' exists in the system")
      else
        logger WARNING ("User '" ++ username ++ "' was not found after creation")
    else
      logger ERROR ("Failed to create user '" ++ username ++ "'")
  else if command_is args "delete-user" then
    let username := username args in
    logger INFO ("Deleting user '" ++ username ++ "'...") ;;
    deleted <- delete_user username ;;
    if deleted then
      logger INFO ("Successfully deleted user '" ++ username ++ "'")
    else
      logger ERROR ("Failed to delete user '" ++ username ++ "'")
  else if command_is args "add-to-group" then
    let username := username args in
    let group := group args in
    logger INFO ("Adding user '" ++ username ++ "' to group '" ++ group ++ "'...") ;;
    added <- add_user_to_group username group ;;
    if added then
      logger INFO ("Successfully added user '" ++ username
                   ++ "' to group '" ++ group ++ "'")
    else
      logger ERROR ("Failed to add user '" ++ username
                    ++ "' to group '" ++ group ++ "'")
  else if command_is args "list-groups" then
    logger INFO "Getting list of groups..." ;;
    groups <- get_groups ;;
    n <- py_len groups ;;
    logger INFO ("Found " ++ str_of_nat n ++ " groups") ;;
    if py_truthy groups then
      logger INFO "Group list:" ;;
      items <- py_iter groups ;;
      for_each items (fun group =>
        metadata <- py_get group "metadata" (PDict []) ;;
        group_name <- py_get metadata "name" (PStr "Unknown") ;;
        users <- py_get group "users" (PList []) ;;
        m <- py_len users ;;
        logger INFO ("- " ++ py_str group_name
                     ++ " (Users: " ++ str_of_nat m ++ ")"))
    else ret tt
  else
    logger ERROR "No command specified" ;;
    print_help.

(** [main] after its first two statements, from the namespace [args]
    on. *)
Definition main (args : Namespace) : M unit :=
  connected <- check_connection ;;
  (if negb connected then sys_exit 1 else ret tt) ;;
  handle_command args.

(** [parser.parse_args()]: the namespace, or the end of the process. *)
Definition parse_args (argv : list string) : M Namespace :=
  match parser argv with
  | Parsed_args args => ret args
  | HelpExit => print_help ;; sys_exit 0
  | UsageExit => sys_exit 2
  end.

(** The whole of [main()] on the command line [argv]: the arguments are
    parsed first, then [main] goes on with the namespace. *)
Definition main_from_argv (argv : list string) : M unit :=
  args <- parse_args argv ;;
  main args.

(** ** Vocabulary of the statements *)

(** [run_oc_command] reports the call [oc command], made after the
    calls in [history], as a success: the process exits with status zero
    and its output is text. *)
Definition succeeds (history : list (list string)) (command : list string) : bool :=
  match oc history ("oc" :: command) with
  | Exited returncode _ _ => returncode =? 0
  | Undecodable _ _ | NotLaunched _ => false
  end.

(** The text [run_oc_command] hands back for that call. *)
Definition output_of (history : list (list string)) (command : list string) : string :=
  match oc history ("oc" :: command) with
  | Exited returncode stdout stderr => if returncode =? 0 then stdout else stderr
  | Undecodable _ message | NotLaunched message => message
  end.

(** The records [run_oc_command] logs for that call: none on success. *)
Definition failure_report (history : list (list string)) (command : list string)
  : list (Level * string) :=
  match oc history ("oc" :: command) with
  | Exited returncode _ stderr =>
      if returncode =? 0 then []
      else [(ERROR, ("Command failed: " ++ join_spaces ("oc" :: command))%string);
            (ERROR, ("Error: " ++ strip stderr)%string)]
  | Undecodable _ message | NotLaunched message =>
      [(ERROR, ("Exception while running command: " ++ message)%string)]
  end.

(** The world with further log records. *)
Definition emit (records : list (Level * string)) (w : World) : World :=
  mkWorld (calls w) (logs w ++ records) (help_printed w).

(** The world after [run_oc_command command]. *)
Definition after_call (command : list string) (w : World) : World :=
  mkWorld (calls w ++ ["oc" :: command])
          (logs w ++ failure_report (calls w) command)
          (help_printed w).

(** The five subcommands [main] dispatches on. *)
Definition subcommands : list string :=
  ["list-users"; "create-user"; "delete-user"; "add-to-group"; "list-groups"].

Definition recognized (args : Namespace) : bool :=
  existsb (command_is args) subcommands.

(** A decoded user as the script reads it: an object whose [metadata],
    when present, is an object. *)
Definition is_user_record (v : pyval) : bool :=
  match v with
  | PDict entries =>
      match dict_lookup "metadata" entries with
      | None | Some (PDict _) => true
      | Some _ => false
      end
  | _ => false
  end.

(** The user's [metadata.name] is the string [name]. *)
Definition named (name : string) (v : pyval) : Prop :=
  exists entries metadata,
    v = PDict entries /\
    dict_lookup "metadata" entries = Some (PDict metadata) /\
    dict_lookup "name" metadata = Some (PStr name).

(** The same as a test. *)
Definition user_has_name (name : string) (v : pyval) : bool :=
  match v with
  | PDict entries =>
      match dict_lookup "metadata" entries with
      | Some (PDict metadata) =>
          match dict_lookup "name" metadata with
          | Some (PStr s) => String.eqb s name
          | _ => false
          end
      | _ => false
      end
  | _ => false
  end.

(** A decoded group as the script reads it: an object whose [metadata],
    when present, is an object and whose [users], when present, has a
    length. *)
Definition is_group_record (v : pyval) : bool :=
  match v with
  | PDict entries =>
      match dict_lookup "metadata" entries with
      | None | Some (PDict _) => true
      | Some _ => false
      end &&
      match dict_lookup "users" entries with
      | None | Some (PList _) | Some (PDict _) | Some (PStr _) => true
      | Some _ => false
      end
  | _ => false
  end.

(** The output schema the script relies on: whenever the users (groups)
    are listed, what [get_users] ([get_groups]) hands back is a list of
    user (group) records. *)
Definition users_schema : Prop :=
  forall w, exists users,
    fst (get_users w) = Ret (PList users) /\
    forallb is_user_record users = true.

Definition groups_schema : Prop :=
  forall w, exists groups,
    fst (get_groups w) = Ret (PList groups) /\
    forallb is_group_record groups = true.

(** The calls the group loop of [create_user] may make for one of the
    groups: the query, the creation and the membership call. *)
Definition group_call (username : string) (groups : list string)
    (argv : list string) : Prop :=
  exists group,
    In group groups /\
    (argv = ["oc"; "get"; "group"; group] \/
     argv = ["oc"; "adm"; "groups"; "new"; group] \/
     argv = ["oc"; "adm"; "groups"; "add-users"; group; username]).

(** The name a record is listed under: its [metadata.name], the string
    [Unknown] when the record has no metadata or the metadata no name. *)
Definition display_name (v : pyval) : pyval :=
  match v with
  | PDict entries =>
      match dict_lookup "metadata" entries with
      | Some (PDict metadata) =>
          match dict_lookup "name" metadata with
          | Some name => name
          | None => PStr "Unknown"
          end
      | _ => PStr "Unknown"
      end
  | _ => PStr "Unknown"
  end.

(** The number of members a group record is listed with: the length of
    its [users], 0 when it has none. *)
Definition member_count (v : pyval) : nat :=
  match v with
  | PDict entries =>
      match dict_lookup "users" entries with
      | Some (PList members) => List.length members
      | Some (PDict members) => List.length members
      | Some (PStr members) => String.length members
      | _ => 0%nat
      end
  | _ => 0%nat
  end.

(** A computation that prints no help. *)
Definition no_help {A} (m : M A) : Prop :=
  forall w, help_printed (snd (m w)) = help_printed w.

(** A computation that calls no subprocess. *)
Definition quiet {A} (m : M A) : Prop :=
  forall w, calls (snd (m w)) = calls w.

(** ** The command runner *)

Lemma emit_nil w : emit [] w = w.
Proof. destruct w; unfold emit; simpl. now rewrite app_nil_r. Qed.

Lemma logger_emits l msg w :
  levelno INFO <= levelno l -> logger l msg w = (Ret tt, emit [(l, msg)] w).
Proof.
  intros H. unfold logger. apply Z.leb_le in H. now rewrite H.
Qed.

Lemma run_oc_command_eq command w :
  run_oc_command command w =
  (Ret (succeeds (calls w) command, output_of (calls w) command),
   after_call command w).
Proof.
  unfold run_oc_command, succeeds, output_of, after_call, failure_report,
    bind, subprocess_run, logger; simpl.
  destruct (oc (calls w) ("oc" :: command)) as [rc out err | rc msg | msg]; simpl.
  - destruct (rc =? 0); simpl; [now rewrite app_nil_r |].
    now rewrite <- app_assoc.
  - reflexivity.
  - reflexivity.
Qed.

Lemma failure_report_success history command :
  succeeds history command = true -> failure_report history command = [].
Proof.
  unfold succeeds, failure_report.
  destruct (oc history ("oc" :: command)) as [rc out err | rc msg | msg];
    [intros -> | discriminate | discriminate]; reflexivity.
Qed.

Arguments run_oc_command : simpl never.
Arguments logger : simpl never.

(** Symbolic execution: expose the next bind, replace a call of the runner
    by its result and an emitted record by [emit]. *)
Ltac exec :=
  repeat first
    [ rewrite run_oc_command_eq
    | rewrite logger_emits by (simpl; lia)
    | progress (unfold bind at 1)
    | progress (unfold ret, raise)
    | progress (cbn beta iota delta
                  [negb fst snd calls logs help_printed after_call emit]) ].

(** Compare two worlds field by field. *)
Ltac same_world :=
  unfold emit, after_call; simpl;
  repeat rewrite <- app_assoc; simpl;
  repeat rewrite app_nil_r;
  try reflexivity.

(** C7: [check_connection] runs [oc whoami] first; when that fails it
    reports that the user is not logged in and returns false without
    running [oc project]; otherwise it runs [oc project], returns false
    when that fails and, when it succeeds, logs the project name and
    returns true. *)
Theorem check_connection_steps (w : World) :
  let h := calls w in
  let whoami := ["oc"; "whoami"] in
  let project := ["oc"; "project"] in
  (succeeds h ["whoami"] = false ->
     check_connection w =
     (Ret false,
      mkWorld (h ++ [whoami])
        (logs w ++ failure_report h ["whoami"]
           ++ [(ERROR, "Not logged in to OpenShift cluster. Run 'oc login' first.")])
        (help_printed w))) /\
  (succeeds h ["whoami"] = true ->
   succeeds (h ++ [whoami]) ["project"] = false ->
     check_connection w =
     (Ret false,
      mkWorld (h ++ [whoami; project])
        (logs w ++ failure_report (h ++ [whoami]) ["project"]
           ++ [(ERROR, "Failed to get current project")])
        (help_printed w))) /\
  (succeeds h ["whoami"] = true ->
   succeeds (h ++ [whoami]) ["project"] = true ->
     check_connection w =
     (Ret true,
      mkWorld (h ++ [whoami; project])
        (logs w ++ [(INFO, ("Connected to OpenShift. Current project: "
                            ++ strip (output_of (h ++ [whoami]) ["project"]))%string)])
        (help_printed w))).
Proof.
  cbv zeta. unfold check_connection, is_logged_in.
  repeat split; intros.
  - exec. rewrite H. exec. same_world.
  - exec. rewrite H. exec. rewrite H0. exec. same_world.
    now rewrite (failure_report_success _ _ H).
  - exec. rewrite H. exec. rewrite H0. exec. same_world.
    now rewrite (failure_report_success _ _ H), (failure_report_success _ _ H0).
Qed.

(** C5, as the code has it: [run_oc_command] returns (true, stdout)
    exactly when the process exits with status zero and its output is text;
    (false, stderr) when it exits with another status and its output is
    text; and (false, message of the exception) whenever [subprocess.run]
    raises anything else, be it that the binary could not be launched or
    that the output could not be decoded, whatever the exit status.  It
    never raises. *)
Theorem run_oc_command_result (command : list string) (w : World) :
  let outcome := oc (calls w) ("oc" :: command) in
  let result := fst (run_oc_command command w) in
  (forall stdout stderr,
     outcome = Exited 0 stdout stderr -> result = Ret (true, stdout)) /\
  (forall returncode stdout stderr,
     outcome = Exited returncode stdout stderr -> returncode <> 0 ->
     result = Ret (false, stderr)) /\
  (forall returncode message,
     outcome = Undecodable returncode message ->
     result = Ret (false, message)) /\
  (forall message,
     outcome = NotLaunched message -> result = Ret (false, message)) /\
  ((exists text, result = Ret (true, text)) <->
   (exists stdout stderr, outcome = Exited 0 stdout stderr)).
Proof.
  cbv zeta. rewrite run_oc_command_eq. unfold succeeds, output_of. simpl.
  destruct (oc (calls w) ("oc" :: command)) as [rc out err | rc msg | msg].
  - split; [| split; [| split; [| split; [| split]]]]; try discriminate.
    + intros stdout stderr [= -> -> ->]. reflexivity.
    + intros returncode stdout stderr [= -> -> ->] Hrc.
      apply Z.eqb_neq in Hrc. now rewrite Hrc.
    + intros [text Htext]. destruct (Z.eqb_spec rc 0) as [-> | Hrc].
      * now exists out, err.
      * discriminate.
    + intros (stdout & stderr & [= -> -> ->]). now exists stdout.
  - split; [| split; [| split; [| split; [| split]]]]; try discriminate.
    + intros returncode message [= -> ->]. reflexivity.
    + intros [text Htext]. discriminate.
    + intros (stdout & stderr & Habs). discriminate.
  - split; [| split; [| split; [| split; [| split]]]]; try discriminate.
    + intros message [= ->]. reflexivity.
    + intros [text Htext]. discriminate.
    + intros (stdout & stderr & Habs). discriminate.
Qed.

(** C3: [add_user_to_group] fails at either step.  When the group query
    and the group creation both fail it returns false after those two
    calls, without the membership call; when the group exists or was
    created and the membership call fails it returns false as well. *)
Theorem add_user_to_group_fatal (username group : string) (w : World) :
  let h := calls w in
  let query := ["get"; "group"; group] in
  let create := ["adm"; "groups"; "new"; group] in
  let add := ["adm"; "groups"; "add-users"; group; username] in
  let run := add_user_to_group username group w in
  (succeeds h query = false ->
   succeeds (h ++ ["oc" :: query]) create = false ->
     fst run = Ret false /\
     calls (snd run) = h ++ ["oc" :: query; "oc" :: create]) /\
  (succeeds h query = false ->
   succeeds (h ++ ["oc" :: query]) create = true ->
   succeeds (h ++ ["oc" :: query; "oc" :: create]) add = false ->
     fst run = Ret false /\
     calls (snd run) = h ++ ["oc" :: query; "oc" :: create; "oc" :: add]) /\
  (succeeds h query = true ->
   succeeds (h ++ ["oc" :: query]) add = false ->
     fst run = Ret false /\
     calls (snd run) = h ++ ["oc" :: query; "oc" :: add]).
Proof.
  cbv zeta. unfold add_user_to_group.
  repeat split; intros.
  all: exec; rewrite H; exec; rewrite ?H0; exec;
    repeat rewrite <- app_assoc; simpl; rewrite ?H1; exec;
    repeat rewrite <- app_assoc; simpl; reflexivity.
Qed.

(** *** The group loop of [create_user] *)

Lemma create_user_group_returns username group w :
  fst (create_user_group username group w) = Ret tt.
Proof.
  unfold create_user_group. exec.
  destruct (succeeds (calls w) ["get"; "group"; group]); exec.
  - destruct (succeeds _ ["adm"; "groups"; "add-users"; group; username]);
      exec; reflexivity.
  - destruct (succeeds _ ["adm"; "groups"; "new"; group]); exec;
      [| reflexivity].
    destruct (succeeds _ ["adm"; "groups"; "add-users"; group; username]);
      exec; reflexivity.
Qed.

Lemma for_each_groups_returns username groups w :
  fst (for_each groups (create_user_group username) w) = Ret tt.
Proof.
  revert w. induction groups as [| g rest IH]; intros w; simpl; [reflexivity |].
  unfold bind.
  pose proof (create_user_group_returns username g w) as Hg.
  destruct (create_user_group username g w) as [[[] | e] w']; simpl in Hg;
    [apply IH | discriminate].
Qed.

Lemma for_each_groups_app username before rest w :
  for_each (before ++ rest) (create_user_group username) w =
  for_each rest (create_user_group username)
    (snd (for_each before (create_user_group username) w)).
Proof.
  revert w. induction before as [| g before IH]; intros w; simpl; [reflexivity |].
  unfold bind.
  pose proof (create_user_group_returns username g w) as Hg.
  destruct (create_user_group username g w) as [[[] | e] w']; simpl in Hg;
    [apply IH | discriminate].
Qed.

(** A group whose query and creation both fail costs those two calls and
    is then left: the loop goes on with the next group. *)
Lemma create_user_group_skipped username group w :
  let query := ["get"; "group"; group] in
  let create := ["adm"; "groups"; "new"; group] in
  succeeds (calls w) query = false ->
  succeeds (calls w ++ ["oc" :: query]) create = false ->
  create_user_group username group w =
  (Ret tt,
   mkWorld (calls w ++ ["oc" :: query; "oc" :: create])
     (logs w ++ failure_report (calls w) query
        ++ [(INFO, ("Group '" ++ group ++ "' doesn't exist, creating it")%string)]
        ++ failure_report (calls w ++ ["oc" :: query]) create
        ++ [(WARNING, ("Failed to create group '" ++ group ++ "'")%string)])
     (help_printed w)).
Proof.
  cbv zeta. intros Hq Hc. unfold create_user_group.
  exec. rewrite Hq. exec. rewrite Hc. exec. same_world.
Qed.

Lemma create_user_true username groups w :
  succeeds (calls w) ["create"; "user"; username] = true ->
  fst (create_user username groups w) = Ret true.
Proof.
  intros Hc. unfold create_user. exec. rewrite Hc. exec.
  destruct groups as [[| g rest] |]; exec; try reflexivity.
  match goal with
  | |- context [for_each ?l ?b ?w0] =>
      pose proof (for_each_groups_returns username l w0) as Hl;
      destruct (for_each l b w0) as [[[] | e] w']; simpl in Hl;
      [reflexivity | discriminate]
  end.
Qed.

(** C2: once the user-create call has succeeded, a group whose
    existence query and creation both fail is only logged: the membership
    call for it is not made, the loop continues with the groups after it,
    and [create_user] returns true, wherever the group stands in the list. *)
Theorem create_user_group_failures_isolated
    (username : string) (before : list string) (group : string)
    (rest : list string) (w : World) :
  let body := create_user_group username in
  let query := ["get"; "group"; group] in
  let create := ["adm"; "groups"; "new"; group] in
  let w0 := emit [(INFO, ("User '" ++ username ++ "' created successfully")%string)]
              (after_call ["create"; "user"; username] w) in
  let w1 := snd (for_each before body w0) in
  let w2 :=
    mkWorld (calls w1 ++ ["oc" :: query; "oc" :: create])
      (logs w1 ++ failure_report (calls w1) query
         ++ [(INFO, ("Group '" ++ group ++ "' doesn't exist, creating it")%string)]
         ++ failure_report (calls w1 ++ ["oc" :: query]) create
         ++ [(WARNING, ("Failed to create group '" ++ group ++ "'")%string)])
      (help_printed w1) in
  succeeds (calls w) ["create"; "user"; username] = true ->
  succeeds (calls w1) query = false ->
  succeeds (calls w1 ++ ["oc" :: query]) create = false ->
  create_user username (Some (before ++ group :: rest)) w =
  (Ret true, snd (for_each rest body w2)).
Proof.
  cbv zeta. intros Hu Hq Hc.
  unfold create_user. exec. rewrite Hu. exec.
  set (w0 := emit _ (after_call _ w)) in *.
  assert (Hloop :
    for_each (before ++ group :: rest) (create_user_group username) w0 =
    for_each rest (create_user_group username)
      (snd (create_user_group username group
              (snd (for_each before (create_user_group username) w0))))).
  { rewrite for_each_groups_app. simpl. unfold bind.
    pose proof (create_user_group_returns username group
                  (snd (for_each before (create_user_group username) w0))) as Hg.
    destruct (create_user_group username group _) as [[[] | e] w']; simpl in Hg;
      [reflexivity | discriminate]. }
  rewrite (create_user_group_skipped username group _ Hq Hc) in Hloop.
  cbn [snd] in Hloop.
  destruct (before ++ group :: rest) as [| g0 l0] eqn:E;
    [destruct before; discriminate |].
  rewrite Hloop.
  match goal with
  | |- context [for_each rest ?b ?w2] =>
      pose proof (for_each_groups_returns username rest w2) as Hrest;
      destruct (for_each rest b w2) as [[[] | e] w3]; simpl in Hrest;
      [reflexivity | discriminate]
  end.
Qed.

(** *** The list queries *)

(** When the query succeeds and [json.loads] raises
    [json.JSONDecodeError] on its output, [get_users] and [get_groups] log
    a parse error and return the empty list; nothing is raised, and the
    value is the one returned for a response whose item list is empty. *)
Lemma list_queries_swallow_parse_errors (w : World) :
  let h := calls w in
  let users_query := ["get"; "users"; "-o"; "json"] in
  let groups_query := ["get"; "groups"; "-o"; "json"] in
  (succeeds h users_query = true ->
   json_loads (output_of h users_query) = DecodeError ->
     get_users w =
     (Ret (PList []),
      mkWorld (h ++ ["oc" :: users_query])
        (logs w ++ [(ERROR, "Failed to parse user data as JSON")])
        (help_printed w)) /\
     forall w',
       succeeds (calls w') users_query = true ->
       json_loads (output_of (calls w') users_query)
         = Decoded (PDict [("items", PList [])]) ->
       fst (get_users w') = fst (get_users w)) /\
  (succeeds h groups_query = true ->
   json_loads (output_of h groups_query) = DecodeError ->
     get_groups w =
     (Ret (PList []),
      mkWorld (h ++ ["oc" :: groups_query])
        (logs w ++ [(ERROR, "Failed to parse group data as JSON")])
        (help_printed w)) /\
     forall w',
       succeeds (calls w') groups_query = true ->
       json_loads (output_of (calls w') groups_query)
         = Decoded (PDict [("items", PList [])]) ->
       fst (get_groups w') = fst (get_groups w)).
Proof.
  cbv zeta. split; intros Hok Hbad.
  - assert (Hrun : get_users w =
      (Ret (PList []),
       mkWorld (calls w ++ [["oc"; "get"; "users"; "-o"; "json"]])
         (logs w ++ [(ERROR, "Failed to parse user data as JSON")])
         (help_printed w))).
    { unfold get_users. exec. rewrite Hok. exec. rewrite Hbad. exec.
      same_world. now rewrite (failure_report_success _ _ Hok). }
    split; [exact Hrun |].
    intros w' Hok' Hempty. rewrite Hrun.
    unfold get_users. exec. rewrite Hok'. exec. rewrite Hempty. reflexivity.
  - assert (Hrun : get_groups w =
      (Ret (PList []),
       mkWorld (calls w ++ [["oc"; "get"; "groups"; "-o"; "json"]])
         (logs w ++ [(ERROR, "Failed to parse group data as JSON")])
         (help_printed w))).
    { unfold get_groups. exec. rewrite Hok. exec. rewrite Hbad. exec.
      same_world. now rewrite (failure_report_success _ _ Hok). }
    split; [exact Hrun |].
    intros w' Hok' Hempty. rewrite Hrun.
    unfold get_groups. exec. rewrite Hok'. exec. rewrite Hempty. reflexivity.
Qed.

(** C10: when the query succeeds and its output decodes to an object
    without an [items] key, [get_users] and [get_groups] return the empty
    list and log nothing, exactly as for an object whose [items] is the
    empty list. *)
Theorem list_queries_without_items
    (entries : list (string * pyval)) (w : World) :
  let h := calls w in
  let users_query := ["get"; "users"; "-o"; "json"] in
  let groups_query := ["get"; "groups"; "-o"; "json"] in
  dict_lookup "items" entries = None \/
  dict_lookup "items" entries = Some (PList []) ->
  (succeeds h users_query = true ->
   json_loads (output_of h users_query) = Decoded (PDict entries) ->
     get_users w =
     (Ret (PList []),
      mkWorld (h ++ ["oc" :: users_query]) (logs w) (help_printed w))) /\
  (succeeds h groups_query = true ->
   json_loads (output_of h groups_query) = Decoded (PDict entries) ->
     get_groups w =
     (Ret (PList []),
      mkWorld (h ++ ["oc" :: groups_query]) (logs w) (help_printed w))).
Proof.
  cbv zeta. intros Hitems. split; intros Hok Hdata.
  - unfold get_users. exec. rewrite Hok. exec. rewrite Hdata.
    unfold py_get.
    destruct Hitems as [-> | ->]; exec; same_world;
      now rewrite (failure_report_success _ _ Hok), app_nil_r.
  - unfold get_groups. exec. rewrite Hok. exec. rewrite Hdata.
    unfold py_get.
    destruct Hitems as [-> | ->]; exec; same_world;
      now rewrite (failure_report_success _ _ Hok), app_nil_r.
Qed.

(** *** The dispatcher *)

Lemma check_connection_cases w :
  (fst (check_connection w) = Ret false /\
   (calls (snd (check_connection w)) = calls w ++ [["oc"; "whoami"]] \/
    calls (snd (check_connection w))
      = calls w ++ [["oc"; "whoami"]; ["oc"; "project"]])) \/
  (fst (check_connection w) = Ret true /\
   calls (snd (check_connection w))
     = calls w ++ [["oc"; "whoami"]; ["oc"; "project"]]).
Proof.
  unfold check_connection, is_logged_in. exec.
  destruct (succeeds (calls w) ["whoami"]); exec.
  - destruct (succeeds (calls w ++ [["oc"; "whoami"]]) ["project"]); exec;
      rewrite <- app_assoc; simpl; [right | left]; auto.
  - left. auto.
Qed.

Lemma main_connected args w :
  fst (check_connection w) = Ret true ->
  main args w = handle_command args (snd (check_connection w)).
Proof.
  intros H. unfold main. unfold bind at 1.
  destruct (check_connection w) as [r w1]. simpl in H. subst r. reflexivity.
Qed.

Lemma main_not_connected args w :
  fst (check_connection w) = Ret false ->
  main args w = (Raise (SystemExit 1), snd (check_connection w)).
Proof.
  intros H. unfold main. unfold bind at 1.
  destruct (check_connection w) as [r w1]. simpl in H. subst r. reflexivity.
Qed.

Lemma command_is_name args name :
  command_is args name = true ->
  forall other, command_is args other = String.eqb name other.
Proof.
  unfold command_is. destruct (command args) as [c |]; [| discriminate].
  intros H other. apply String.eqb_eq in H. now subst.
Qed.

Lemma handle_command_unrecognized args w :
  recognized args = false ->
  handle_command args w =
  (Ret tt,
   mkWorld (calls w) (logs w ++ [(ERROR, "No command specified")])
     (S (help_printed w))).
Proof.
  unfold recognized, subcommands. simpl. intros H.
  repeat (apply orb_false_iff in H; destruct H as [? H]).
  unfold handle_command.
  repeat match goal with Hc : command_is args _ = false |- _ => rewrite Hc; clear Hc end.
  exec. reflexivity.
Qed.

Lemma main_from_argv_parsed argv args w :
  parser argv = Parsed_args args -> main_from_argv argv w = main args w.
Proof.
  intros H. unfold main_from_argv, parse_args. rewrite H. reflexivity.
Qed.

Lemma no_command_unrecognized args :
  command args = None -> recognized args = false.
Proof.
  intros H. unfold recognized, subcommands, command_is. now rewrite H.
Qed.

(** C1, as the code has it.  A command line the parser rejects, as it
    does an unrecognized subcommand, ends the process inside
    [parse_args] with status 2, before anything is called.  Without a
    subcommand the dispatcher still runs the connection check first, which
    calls [oc whoami] and, when that succeeds, [oc project]: when the check
    fails the process exits with status 1 and prints no help; when it
    succeeds the dispatcher logs that no command was specified, prints the
    usage help, makes no further call and returns. *)
Theorem main_without_command (argv : list string) (w : World) :
  (parser argv = UsageExit ->
     main_from_argv argv w = (Raise (SystemExit 2), w)) /\
  (forall args,
     parser argv = Parsed_args args -> command args = None ->
     let connection := check_connection w in
     let w1 := snd connection in
     (fst connection = Ret false \/ fst connection = Ret true) /\
     (calls w1 = calls w ++ [["oc"; "whoami"]] \/
      calls w1 = calls w ++ [["oc"; "whoami"]; ["oc"; "project"]]) /\
     (fst connection = Ret false ->
        main_from_argv argv w = (Raise (SystemExit 1), w1)) /\
     (fst connection = Ret true ->
        main_from_argv argv w =
        (Ret tt,
         mkWorld (calls w1) (logs w1 ++ [(ERROR, "No command specified")])
           (S (help_printed w1))))).
Proof.
  split.
  - intros H. unfold main_from_argv, parse_args. rewrite H. reflexivity.
  - intros args Hparsed Hnone. cbv zeta.
    rewrite (main_from_argv_parsed argv args w Hparsed).
    split; [| split; [| split]].
    + destruct (check_connection_cases w) as [[H _] | [H _]]; auto.
    + destruct (check_connection_cases w) as [[_ H] | [_ H]]; auto.
    + apply main_not_connected.
    + intros H. rewrite (main_connected args w H).
      apply handle_command_unrecognized.
      now apply no_command_unrecognized.
Qed.

(** The exit status when the connection check fails. *)
Lemma main_exit_status_not_connected args w :
  fst (check_connection w) = Ret false ->
  exit_status (fst (main args w)) = 1.
Proof. intros H. now rewrite (main_not_connected args w H). Qed.

(** [delete-user] and [add-to-group] only log the outcome of the
    operation: once connected, [main] returns. *)
Lemma main_exit_status_mutations args w :
  fst (check_connection w) = Ret true ->
  command_is args "delete-user" = true \/ command_is args "add-to-group" = true ->
  exit_status (fst (main args w)) = 0.
Proof.
  intros Hc Hcmd. rewrite (main_connected args w Hc).
  set (w1 := snd (check_connection w)). clearbody w1.
  unfold handle_command.
  destruct Hcmd as [H | H]; rewrite !(command_is_name _ _ H); simpl.
  - unfold delete_user. exec.
    destruct (succeeds _ ["delete"; "user"; username args]); exec; reflexivity.
  - unfold add_user_to_group. exec.
    destruct (succeeds _ ["get"; "group"; group args]); exec.
    + destruct (succeeds _ ["adm"; "groups"; "add-users"; _; _]); exec; reflexivity.
    + destruct (succeeds _ ["adm"; "groups"; "new"; _]); exec; [| reflexivity].
      destruct (succeeds _ ["adm"; "groups"; "add-users"; _; _]); exec; reflexivity.
Qed.

(** *** Verification after [create-user] *)

Lemma user_has_name_named name v :
  user_has_name name v = true <-> named name v.
Proof.
  unfold user_has_name, named. split.
  - destruct v as [| | | | | | entries]; try discriminate.
    destruct (dict_lookup "metadata" entries) as [[| | | | | | metadata] |] eqn:Hm;
      try discriminate.
    destruct (dict_lookup "name" metadata) as [[| | | | s | |] |] eqn:Hn;
      try discriminate.
    intros H. apply String.eqb_eq in H. subst s.
    exists entries, metadata. auto.
  - intros (entries & metadata & -> & -> & ->). apply String.eqb_refl.
Qed.

Lemma exists_user_named name users :
  existsb (user_has_name name) users = true <-> Exists (named name) users.
Proof.
  rewrite existsb_exists, Exists_exists.
  split; intros (v & Hin & Hv); exists v; split; auto;
    now apply user_has_name_named.
Qed.

Lemma py_any_tests {A} (xs : list A) (test : A -> M bool) (f : A -> bool) w :
  (forall x, In x xs -> test x w = (Ret (f x), w)) ->
  py_any xs test w = (Ret (existsb f xs), w).
Proof.
  induction xs as [| x rest IH]; intros Htest; [reflexivity |].
  cbn [py_any existsb]. unfold bind at 1.
  rewrite (Htest x (or_introl eq_refl)).
  destruct (f x); [reflexivity |].
  apply IH. intros y Hy. apply Htest. now right.
Qed.

(** On a user record the test of the verification reads the name. *)
Lemma verification_test name v w :
  is_user_record v = true ->
  (metadata <- py_get v "metadata" (PDict []) ;;
   name' <- py_get metadata "name" PNone ;;
   ret (py_eq_str name' name)) w
  = (Ret (user_has_name name v), w).
Proof.
  unfold is_user_record, user_has_name. intros Hv.
  destruct v as [| | | | | | entries]; try discriminate.
  unfold bind, py_get, ret; simpl.
  destruct (dict_lookup "metadata" entries) as [[| | | | | | metadata] |];
    try discriminate; simpl; [| reflexivity].
  destruct (dict_lookup "name" metadata) as [[| | | | s | |] |]; reflexivity.
Qed.

Lemma get_users_calls w :
  calls (snd (get_users w)) = calls w ++ [["oc"; "get"; "users"; "-o"; "json"]].
Proof.
  unfold get_users. exec.
  destruct (succeeds (calls w) _); exec; [| reflexivity].
  destruct (json_loads _) as [data | | e]; exec; try reflexivity.
  destruct data; reflexivity.
Qed.

(** After [create_user] has returned true the dispatcher lists the
    users again ([oc get users -o json]); on the user records that come
    back it logs the "Verified" line if and only if one of them has the
    created username as its metadata name, and the "not found" warning
    otherwise. *)
Theorem create_user_verification
    (args : Namespace) (users : list pyval) (w w2 w3 : World) :
  let name := username args in
  let verified :=
    (INFO, ("Verified user '" ++ name ++ "' exists in the system")%string) in
  let missing :=
    (WARNING, ("User '" ++ name ++ "' was not found after creation")%string) in
  command_is args "create-user" = true ->
  create_user name (groups_or_none (groups args))
    (emit [(INFO, ("Creating user '" ++ name ++ "'...")%string)] w)
    = (Ret true, w2) ->
  get_users
    (emit [(INFO, ("Successfully created user '" ++ name ++ "'")%string)] w2)
    = (Ret (PList users), w3) ->
  forallb is_user_record users = true ->
  calls w3 = calls w2 ++ [["oc"; "get"; "users"; "-o"; "json"]] /\
  exists record,
    handle_command args w = (Ret tt, emit [record] w3) /\
    (record = verified <-> Exists (named name) users) /\
    (record = missing <-> ~ Exists (named name) users).
Proof.
  cbv zeta. intros Hcmd Hcreate Hlist Hrecords. split.
  - pose proof (get_users_calls
      (emit [(INFO, ("Successfully created user '" ++ username args ++ "'")%string)]
         w2)) as Hcalls.
    rewrite Hlist in Hcalls. exact Hcalls.
  - pose proof (command_is_name _ _ Hcmd) as Hcmd'; clear Hcmd; rename Hcmd' into Hcmd.
    assert (Hrun : forall record,
      record = (if existsb (user_has_name (username args)) users
                then (INFO, ("Verified user '" ++ username args
                             ++ "' exists in the system")%string)
                else (WARNING, ("User '" ++ username args
                                ++ "' was not found after creation")%string)) ->
      handle_command args w = (Ret tt, emit [record] w3)).
    { intros record ->.
      unfold handle_command. rewrite !Hcmd.
      change (String.eqb "create-user" "list-users") with false.
      change (String.eqb "create-user" "create-user") with true.
      cbv zeta. exec. rewrite Hcreate. exec. rewrite Hlist. exec.
      unfold py_iter. exec.
      rewrite (py_any_tests users _ (user_has_name (username args)) w3).
      2:{ intros v Hv. apply verification_test.
          rewrite forallb_forall in Hrecords. now apply Hrecords. }
      destruct (existsb (user_has_name (username args)) users); exec;
        reflexivity. }
    pose proof (exists_user_named (username args) users) as Hiff.
    destruct (existsb (user_has_name (username args)) users) eqn:Hex.
    + eexists. split; [apply Hrun; reflexivity |]. split.
      * split; [intros _; now apply Hiff | reflexivity].
      * split; [discriminate |].
        intros Hno. exfalso. apply Hno. now apply Hiff.
    + eexists. split; [apply Hrun; reflexivity |]. split.
      * split; [discriminate |].
        intros Hyes. apply Hiff in Hyes. discriminate.
      * split; [| reflexivity].
        intros _ Hyes. apply Hiff in Hyes. discriminate.
Qed.

(** *** [--groups] without names *)

Lemma quiet_ret {A} (a : A) : quiet (ret a).
Proof. intros w. reflexivity. Qed.

Lemma quiet_raise {A} e : quiet (@raise A e).
Proof. intros w. reflexivity. Qed.

Lemma quiet_logger l msg : quiet (logger l msg).
Proof. intros w. unfold logger. destruct (levelno INFO <=? levelno l); reflexivity. Qed.

Lemma quiet_bind {A B} (m : M A) (k : A -> M B) :
  quiet m -> (forall a, quiet (k a)) -> quiet (bind m k).
Proof.
  intros Hm Hk w. unfold bind. specialize (Hm w).
  destruct (m w) as [[a | e] w']; simpl in Hm; [| exact Hm].
  now rewrite Hk.
Qed.

Lemma quiet_py_get v key default : quiet (py_get v key default).
Proof. destruct v; intros w; reflexivity. Qed.

Lemma quiet_py_iter v : quiet (py_iter v).
Proof. destruct v; intros w; reflexivity. Qed.

Lemma quiet_py_any {A} (xs : list A) (test : A -> M bool) :
  (forall x, quiet (test x)) -> quiet (py_any xs test).
Proof.
  intros Htest. induction xs as [| x rest IH]; simpl.
  - apply quiet_ret.
  - apply quiet_bind; [apply Htest |].
    intros [|]; [apply quiet_ret | exact IH].
Qed.

Create HintDb quiet.
#[local] Hint Resolve quiet_ret quiet_raise quiet_logger quiet_bind
  quiet_py_get quiet_py_iter quiet_py_any : quiet.

Lemma handle_create_user_calls args w :
  command_is args "create-user" = true ->
  groups_or_none (groups args) = None ->
  let create := ["create"; "user"; username args] in
  let relist := ["oc"; "get"; "users"; "-o"; "json"] in
  calls (snd (handle_command args w)) =
  calls w ++ ("oc" :: create)
          :: (if succeeds (calls w) create then [relist] else []).
Proof.
  cbv zeta. intros Hcmd Hnone.
  pose proof (command_is_name _ _ Hcmd) as Hname.
  unfold handle_command. rewrite !Hname, Hnone.
  change (String.eqb "create-user" "list-users") with false.
  change (String.eqb "create-user" "create-user") with true.
  cbv beta iota zeta.
  match goal with
  | |- context [bind get_users ?k] => set (verify := k)
  end.
  assert (Hverify : forall v, quiet (verify v)).
  { intros v. subst verify. cbv beta.
    apply quiet_bind; [auto with quiet |]. intros items.
    apply quiet_bind; [auto 6 with quiet |].
    intros [|]; auto with quiet. }
  clearbody verify.
  unfold create_user. exec.
  destruct (succeeds (calls w) ["create"; "user"; username args]); exec;
    [| reflexivity].
  match goal with
  | |- context [get_users ?w'] =>
      pose proof (get_users_calls w') as Hcalls;
      destruct (get_users w') as [[v | e] wu]
  end; simpl in Hcalls.
  - rewrite Hverify, Hcalls, <- app_assoc. reflexivity.
  - simpl. rewrite Hcalls, <- app_assoc. reflexivity.
Qed.

(** C9: [create-user NAME --groups] with no group name is the same run
    as [create-user NAME]: the empty list becomes [None] before
    [create_user] is called, which then makes the user-create call and no
    other.  Over the whole run, once the connection check has succeeded,
    the binary is called for the user creation and, when that succeeded,
    for the verification list, and for nothing else: no group is queried,
    created or joined. *)
Theorem empty_groups_flag (args : Namespace) (w : World) :
  groups args = Some [] ->
  let omitted := mkNamespace (command args) (username args) (group args) None in
  let whoami := ["oc"; "whoami"] in
  let project := ["oc"; "project"] in
  let create := ["oc"; "create"; "user"; username args] in
  let relist := ["oc"; "get"; "users"; "-o"; "json"] in
  let connected := calls w ++ [whoami; project] in
  groups_or_none (groups args) = None /\
  main args w = main omitted w /\
  calls (snd (create_user (username args) (groups_or_none (groups args)) w))
    = calls w ++ [create] /\
  (command_is args "create-user" = true ->
     (fst (check_connection w) = Ret true ->
        calls (snd (main args w)) =
        connected ++ create
          :: (if succeeds connected ["create"; "user"; username args]
              then [relist] else [])) /\
     (fst (check_connection w) = Ret false ->
        calls (snd (main args w)) = calls (snd (check_connection w)))).
Proof.
  cbv zeta. intros Hempty.
  assert (Hnone : groups_or_none (groups args) = None) by now rewrite Hempty.
  split; [exact Hnone |]. split; [| split].
  - unfold main, handle_command, command_is. simpl. now rewrite Hempty.
  - rewrite Hnone. unfold create_user. exec.
    destruct (succeeds (calls w) _); exec; reflexivity.
  - intros Hcmd. split; intros Hr.
    + assert (Hc : calls (snd (check_connection w))
                   = calls w ++ [["oc"; "whoami"]; ["oc"; "project"]]).
      { destruct (check_connection_cases w) as [[Hno _] | [_ Hc]]; [| exact Hc].
        rewrite Hno in Hr. discriminate. }
      rewrite (main_connected args w Hr).
      rewrite (handle_create_user_calls args _ Hcmd Hnone).
      now rewrite Hc.
    + now rewrite (main_not_connected args w Hr).
Qed.

(** *** The exit status on the expected output schema *)

Lemma for_each_returns {A} (P : A -> bool) (xs : list A) (body : A -> M unit) :
  (forall x w, P x = true -> fst (body x w) = Ret tt) ->
  forallb P xs = true ->
  forall w, fst (for_each xs body w) = Ret tt.
Proof.
  intros Hbody. induction xs as [| x rest IH]; intros Hall w; [reflexivity |].
  simpl in Hall. apply andb_true_iff in Hall. destruct Hall as [Hx Hrest].
  simpl. unfold bind. specialize (Hbody x w Hx).
  destruct (body x w) as [[[] | e] w']; simpl in Hbody; [| discriminate].
  now apply IH.
Qed.

Lemma create_user_returns username groups w :
  exists created, fst (create_user username groups w) = Ret created.
Proof.
  destruct (succeeds (calls w) ["create"; "user"; username]) eqn:Hc.
  - exists true. now apply create_user_true.
  - exists false. unfold create_user. exec. rewrite Hc. exec. reflexivity.
Qed.

Lemma handle_list_users_returns args w :
  users_schema ->
  command_is args "list-users" = true ->
  fst (handle_command args w) = Ret tt.
Proof.
  intros Hschema Hcmd. unfold handle_command. rewrite Hcmd.
  match goal with
  | |- context [bind get_users ?k] => set (report := k)
  end.
  exec.
  match goal with
  | |- context [get_users ?w'] =>
      destruct (Hschema w') as (users & Hu & Hrecords);
      destruct (get_users w') as [r wu]
  end.
  simpl in Hu. subst r report. cbv beta.
  unfold py_len, py_iter. exec.
  destruct users as [| u rest]; [reflexivity |].
  cbn [py_truthy]. exec.
  apply (for_each_returns is_user_record); [| exact Hrecords].
  intros x w' Hx. unfold is_user_record in Hx.
  destruct x as [| | | | | | entries]; try discriminate.
  unfold py_get.
  destruct (dict_lookup "metadata" entries) as [[| | | | | | metadata] |];
    try discriminate; reflexivity.
Qed.

Lemma handle_list_groups_returns args w :
  groups_schema ->
  command_is args "list-groups" = true ->
  fst (handle_command args w) = Ret tt.
Proof.
  intros Hschema Hcmd. pose proof (command_is_name _ _ Hcmd) as Hcmd'; clear Hcmd; rename Hcmd' into Hcmd.
  unfold handle_command. rewrite !Hcmd.
  change (String.eqb "list-groups" "list-users") with false.
  change (String.eqb "list-groups" "create-user") with false.
  change (String.eqb "list-groups" "delete-user") with false.
  change (String.eqb "list-groups" "add-to-group") with false.
  change (String.eqb "list-groups" "list-groups") with true.
  cbv beta iota.
  match goal with
  | |- context [bind get_groups ?k] => set (report := k)
  end.
  exec.
  match goal with
  | |- context [get_groups ?w'] =>
      destruct (Hschema w') as (groups & Hg & Hrecords);
      destruct (get_groups w') as [r wg]
  end.
  simpl in Hg. subst r report. cbv beta.
  unfold py_len at 1. unfold py_iter. exec.
  destruct groups as [| g rest]; [reflexivity |].
  cbn [py_truthy]. exec.
  apply (for_each_returns is_group_record); [| exact Hrecords].
  intros x w' Hx. unfold is_group_record in Hx.
  destruct x as [| | | | | | entries]; try discriminate.
  apply andb_true_iff in Hx. destruct Hx as [Hm Hu].
  unfold py_get, py_len.
  destruct (dict_lookup "metadata" entries) as [[| | | | | | metadata] |];
    try discriminate;
    destruct (dict_lookup "users" entries) as [[| | | | | |] |];
    try discriminate; reflexivity.
Qed.

Lemma handle_create_user_returns args w :
  users_schema ->
  command_is args "create-user" = true ->
  fst (handle_command args w) = Ret tt.
Proof.
  intros Hschema Hcmd. pose proof (command_is_name _ _ Hcmd) as Hcmd'; clear Hcmd; rename Hcmd' into Hcmd.
  unfold handle_command. rewrite !Hcmd.
  change (String.eqb "create-user" "list-users") with false.
  change (String.eqb "create-user" "create-user") with true.
  cbv beta iota zeta.
  match goal with
  | |- context [bind get_users ?k] => set (verify := k)
  end.
  exec.
  match goal with
  | |- context [create_user ?u ?g ?w'] =>
      destruct (create_user_returns u g w') as [created Hc];
      destruct (create_user u g w') as [r wc]
  end.
  simpl in Hc. subst r. destruct created; exec; [| reflexivity].
  match goal with
  | |- context [get_users ?w'] =>
      destruct (Hschema w') as (users & Hu & Hrecords);
      destruct (get_users w') as [r wu]
  end.
  simpl in Hu. subst r verify. cbv beta.
  unfold py_iter. exec.
  rewrite (py_any_tests users _ (user_has_name (username args)) wu).
  - destruct (existsb _ users); exec; reflexivity.
  - intros v Hv. apply verification_test.
    rewrite forallb_forall in Hrecords. now apply Hrecords.
Qed.

(** When the list queries hand back user and group records, the exit
    status after the arguments are parsed tells the connection check and
    nothing else: 1 when it fails, 0 otherwise, whatever the operation
    returned. *)
Lemma main_exit_status_on_schema args w :
  users_schema -> groups_schema ->
  exit_status (fst (main args w)) =
  match fst (check_connection w) with
  | Ret true => 0
  | _ => 1
  end.
Proof.
  intros Husers Hgroups.
  destruct (check_connection_cases w) as [[Hr _] | [Hr _]]; rewrite Hr.
  - now apply main_exit_status_not_connected.
  - destruct (command_is args "list-users") eqn:H1.
    { rewrite (main_connected args w Hr).
      now rewrite handle_list_users_returns. }
    destruct (command_is args "create-user") eqn:H2.
    { rewrite (main_connected args w Hr).
      now rewrite handle_create_user_returns. }
    destruct (command_is args "delete-user") eqn:H3.
    { apply main_exit_status_mutations; auto. }
    destruct (command_is args "add-to-group") eqn:H4.
    { apply main_exit_status_mutations; auto. }
    destruct (command_is args "list-groups") eqn:H5.
    { rewrite (main_connected args w Hr).
      now rewrite handle_list_groups_returns. }
    rewrite (main_connected args w Hr).
    rewrite handle_command_unrecognized; [reflexivity |].
    unfold recognized, subcommands. simpl.
    now rewrite H1, H2, H3, H4, H5.
Qed.

(** ** Further properties of the operations *)

(** X1: [run_oc_command] makes exactly one subprocess call, of [oc]
    followed by the command; it prints no help, keeps the earlier log and
    adds only ERROR records to it, none at all exactly when the process
    exits with status zero and its output is text, that is, when the call
    is reported as a success. *)
Theorem run_oc_command_effects (command : list string) (w : World) :
  let w' := snd (run_oc_command command w) in
  calls w' = calls w ++ ["oc" :: command] /\
  help_printed w' = help_printed w /\
  exists records,
    logs w' = logs w ++ records /\
    Forall (fun r => fst r = ERROR) records /\
    (records = [] <->
     exists stdout stderr,
       oc (calls w) ("oc" :: command) = Exited 0 stdout stderr) /\
    (records = [] <->
     exists stdout, fst (run_oc_command command w) = Ret (true, stdout)).
Proof.
  cbv zeta. rewrite run_oc_command_eq. simpl.
  split; [reflexivity |]. split; [reflexivity |].
  exists (failure_report (calls w) command). split; [reflexivity |].
  unfold failure_report, succeeds, output_of.
  destruct (oc (calls w) ("oc" :: command)) as [rc out err | rc msg | msg].
  - destruct (Z.eqb_spec rc 0) as [-> | Hrc].
    + split; [constructor |]. split; split; intros _; try reflexivity.
      * now exists out, err.
      * now exists out.
    + split; [repeat constructor |]. split; split; try discriminate.
      * intros (stdout & stderr & [= -> _ _]). now contradiction Hrc.
      * intros (stdout & Habs). discriminate.
  - split; [repeat constructor |]. split; split; try discriminate.
    + intros (stdout & stderr & Habs). discriminate.
    + intros (stdout & Habs). discriminate.
  - split; [repeat constructor |]. split; split; try discriminate.
    + intros (stdout & stderr & Habs). discriminate.
    + intros (stdout & Habs). discriminate.
Qed.

(** X2: [delete_user] makes the one call [oc delete user NAME] and
    returns whether it succeeded; a failure is logged with the text the
    binary gave, and nothing is retried. *)
Theorem delete_user_result (username : string) (w : World) :
  let delete := ["delete"; "user"; username] in
  let run := delete_user username w in
  fst run = Ret (succeeds (calls w) delete) /\
  calls (snd run) = calls w ++ ["oc" :: delete] /\
  logs (snd run) =
    logs w ++ failure_report (calls w) delete ++
    [if succeeds (calls w) delete
     then (INFO, ("User '" ++ username ++ "' deleted successfully")%string)
     else (ERROR, ("Failed to delete user '" ++ username ++ "': "
                   ++ output_of (calls w) delete)%string)].
Proof.
  cbv zeta. unfold delete_user. exec.
  destruct (succeeds (calls w) ["delete"; "user"; username]); exec;
    repeat split; same_world.
Qed.

(** X3: [create_user] returns exactly whether the user-create call
    succeeded, whatever groups are given and whatever happens to them; when
    the call fails, no other call is made and the failure is logged with
    the text the binary gave. *)
Theorem create_user_result
    (username : string) (groups : option (list string)) (w : World) :
  let create := ["create"; "user"; username] in
  let run := create_user username groups w in
  fst run = Ret (succeeds (calls w) create) /\
  (succeeds (calls w) create = false ->
     snd run =
     mkWorld (calls w ++ ["oc" :: create])
       (logs w ++ failure_report (calls w) create ++
        [(ERROR, ("Failed to create user '" ++ username ++ "': "
                  ++ output_of (calls w) create)%string)])
       (help_printed w)).
Proof.
  cbv zeta. split.
  - destruct (succeeds (calls w) ["create"; "user"; username]) eqn:Hc.
    + now apply create_user_true.
    + unfold create_user. exec. rewrite Hc. exec. reflexivity.
  - intros Hc. unfold create_user. exec. rewrite Hc. exec. same_world.
Qed.

(** X5: in the group loop of [create_user] a group that exists is not
    created again: the iteration makes the query and the membership call,
    and a failed membership call is a warning only. *)
Theorem create_user_group_existing (username group : string) (w : World) :
  let query := ["get"; "group"; group] in
  let add := ["adm"; "groups"; "add-users"; group; username] in
  let h := calls w ++ ["oc" :: query] in
  succeeds (calls w) query = true ->
  create_user_group username group w =
  (Ret tt,
   mkWorld (calls w ++ ["oc" :: query; "oc" :: add])
     (logs w ++ failure_report h add ++
      [if succeeds h add
       then (INFO, ("Added user '" ++ username ++ "' to group '"
                    ++ group ++ "'")%string)
       else (WARNING, ("Failed to add user '" ++ username ++ "' to group '"
                       ++ group ++ "'")%string)])
     (help_printed w)).
Proof.
  cbv zeta. intros Hq. unfold create_user_group. exec. rewrite Hq. exec.
  destruct (succeeds _ ["adm"; "groups"; "add-users"; group; username]);
    exec; same_world; now rewrite (failure_report_success _ _ Hq).
Qed.

(** X6: [add_user_to_group] returns true exactly when the membership call
    was made and succeeded; a group that exists is not created again, and
    the INFO record of the addition is the last record of a successful
    run. *)
Theorem add_user_to_group_result (username group : string) (w : World) :
  let h := calls w in
  let query := ["get"; "group"; group] in
  let create := ["adm"; "groups"; "new"; group] in
  let add := ["adm"; "groups"; "add-users"; group; username] in
  let run := add_user_to_group username group w in
  let added :=
    if succeeds h query then succeeds (h ++ ["oc" :: query]) add
    else succeeds (h ++ ["oc" :: query]) create
         && succeeds (h ++ ["oc" :: query; "oc" :: create]) add in
  fst run = Ret added /\
  (succeeds h query = true ->
     calls (snd run) = h ++ ["oc" :: query; "oc" :: add]) /\
  (added = true ->
     exists earlier,
       logs (snd run) =
       logs w ++ earlier ++
       [(INFO, ("Added user '" ++ username ++ "' to group '"
                ++ group ++ "'")%string)]).
Proof.
  cbv zeta. unfold add_user_to_group. exec.
  destruct (succeeds (calls w) ["get"; "group"; group]) eqn:Hq; exec.
  - destruct (succeeds _ ["adm"; "groups"; "add-users"; group; username]) eqn:Ha;
      exec.
    + split; [reflexivity |]. split; [intros _; now rewrite <- app_assoc |].
      intros _.
      exists (failure_report (calls w) ["get"; "group"; group] ++
              failure_report (calls w ++ [["oc"; "get"; "group"; group]])
                ["adm"; "groups"; "add-users"; group; username]).
      now repeat rewrite <- app_assoc.
    + split; [reflexivity |].
      split; [intros _; now rewrite <- app_assoc | discriminate].
  - destruct (succeeds _ ["adm"; "groups"; "new"; group]) eqn:Hc; exec.
    + rewrite <- app_assoc. simpl.
      destruct (succeeds _ ["adm"; "groups"; "add-users"; group; username]) eqn:Ha;
        exec.
      * split; [reflexivity |]. split; [discriminate |].
        intros _.
        exists (failure_report (calls w) ["get"; "group"; group] ++
                [(INFO, ("Group '" ++ group ++ "' doesn't exist, creating it")%string)]
                ++ failure_report (calls w ++ [["oc"; "get"; "group"; group]])
                     ["adm"; "groups"; "new"; group]
                ++ failure_report
                     (calls w ++ [["oc"; "get"; "group"; group];
                                  ["oc"; "adm"; "groups"; "new"; group]])
                     ["adm"; "groups"; "add-users"; group; username]).
        repeat rewrite <- app_assoc. reflexivity.
      * split; [reflexivity |]. split; discriminate.
    + split; [reflexivity |]. split; discriminate.
Qed.

(** X7: when the list query itself fails, [get_users] and [get_groups]
    return the empty list and log one more ERROR record; the output is not
    decoded. *)
Theorem list_queries_failed_query (w : World) :
  let h := calls w in
  let users_query := ["get"; "users"; "-o"; "json"] in
  let groups_query := ["get"; "groups"; "-o"; "json"] in
  (succeeds h users_query = false ->
     get_users w =
     (Ret (PList []),
      mkWorld (h ++ ["oc" :: users_query])
        (logs w ++ failure_report h users_query
           ++ [(ERROR, "Failed to get users")])
        (help_printed w))) /\
  (succeeds h groups_query = false ->
     get_groups w =
     (Ret (PList []),
      mkWorld (h ++ ["oc" :: groups_query])
        (logs w ++ failure_report h groups_query
           ++ [(ERROR, "Failed to get groups")])
        (help_printed w))).
Proof.
  cbv zeta. split; intros Hq.
  - unfold get_users. exec. rewrite Hq. exec. same_world.
  - unfold get_groups. exec. rewrite Hq. exec. same_world.
Qed.

(** X8: when the query succeeds and its output decodes, [get_users] and
    [get_groups] hand back the value under [items] as it is, list or not,
    and log nothing; when the decoded value is not an object they raise
    [AttributeError], which their [except] clause does not catch. *)
Theorem list_queries_decoded (data : pyval) (w : World) :
  let h := calls w in
  let users_query := ["get"; "users"; "-o"; "json"] in
  let groups_query := ["get"; "groups"; "-o"; "json"] in
  let result :=
    match data with
    | PDict entries =>
        match dict_lookup "items" entries with
        | Some items => Ret items
        | None => Ret (PList [])
        end
    | _ => Raise AttributeError
    end in
  (succeeds h users_query = true ->
   json_loads (output_of h users_query) = Decoded data ->
     get_users w =
     (result, mkWorld (h ++ ["oc" :: users_query]) (logs w) (help_printed w))) /\
  (succeeds h groups_query = true ->
   json_loads (output_of h groups_query) = Decoded data ->
     get_groups w =
     (result, mkWorld (h ++ ["oc" :: groups_query]) (logs w) (help_printed w))).
Proof.
  cbv zeta. split; intros Hq Hdata.
  - unfold get_users. exec. rewrite Hq. exec. rewrite Hdata.
    unfold py_get.
    destruct data as [| | | | | | entries]; exec; same_world;
      try (now rewrite (failure_report_success _ _ Hq), app_nil_r).
    destruct (dict_lookup "items" entries);
      now rewrite (failure_report_success _ _ Hq), app_nil_r.
  - unfold get_groups. exec. rewrite Hq. exec. rewrite Hdata.
    unfold py_get.
    destruct data as [| | | | | | entries]; exec; same_world;
      try (now rewrite (failure_report_success _ _ Hq), app_nil_r).
    destruct (dict_lookup "items" entries);
      now rewrite (failure_report_success _ _ Hq), app_nil_r.
Qed.

(** X9: when the connection check fails, [main] stops there for every
    subcommand: [sys.exit(1)] is raised with the world the check left, so
    no operation is called, no help is printed and the status is 1. *)
Theorem main_stops_when_not_connected (args : Namespace) (w : World) :
  fst (check_connection w) = Ret false ->
  let run := main args w in
  run = (Raise (SystemExit 1), snd (check_connection w)) /\
  exit_status (fst run) = 1 /\
  help_printed (snd run) = help_printed w /\
  (calls (snd run) = calls w ++ [["oc"; "whoami"]] \/
   calls (snd run) = calls w ++ [["oc"; "whoami"]; ["oc"; "project"]]).
Proof.
  cbv zeta. intros Hno.
  rewrite (main_not_connected args w Hno). cbn [fst snd exit_status].
  split; [reflexivity |]. split; [reflexivity |]. split.
  - clear Hno. unfold check_connection, is_logged_in. exec.
    destruct (succeeds (calls w) ["whoami"]); exec; [| reflexivity].
    destruct (succeeds _ ["project"]); exec; reflexivity.
  - destruct (check_connection_cases w) as [[_ Hc] | [Hyes _]]; [exact Hc |].
    rewrite Hyes in Hno. discriminate.
Qed.

(** *** What the group loop calls *)





(** *** The listings *)

Lemma emit_emit first second w :
  emit second (emit first w) = emit (first ++ second) w.
Proof. unfold emit. simpl. now rewrite app_assoc. Qed.

Lemma for_each_emits {A} (P : A -> bool) (line : A -> Level * string)
    (xs : list A) (body : A -> M unit) :
  (forall x w, P x = true -> body x w = (Ret tt, emit [line x] w)) ->
  forallb P xs = true ->
  forall w, for_each xs body w = (Ret tt, emit (map line xs) w).
Proof.
  intros Hbody. induction xs as [| x rest IH]; intros Hall w.
  - simpl. now rewrite emit_nil.
  - simpl in Hall. apply andb_true_iff in Hall. destruct Hall as [Hx Hrest].
    cbn [for_each map]. unfold bind. rewrite (Hbody x w Hx).
    rewrite (IH Hrest). now rewrite emit_emit.
Qed.

(** X10: [list-users] on a list of user records logs the number of
    users and, when there is any, a heading and one line for each user, in
    the order of the list, with [Unknown] for a user without a name. *)
Theorem list_users_report
    (args : Namespace) (users : list pyval) (w w1 : World) :
  command_is args "list-users" = true ->
  get_users (emit [(INFO, "Getting list of users...")] w)
    = (Ret (PList users), w1) ->
  forallb is_user_record users = true ->
  handle_command args w =
  (Ret tt,
   emit ((INFO, ("Found " ++ str_of_nat (List.length users) ++ " users")%string)
         :: match users with
            | [] => []
            | _ => (INFO, "User list:")
                   :: map (fun user =>
                             (INFO, ("- " ++ py_str (display_name user))%string))
                          users
            end) w1).
Proof.
  intros Hcmd Hlist Hrecords. unfold handle_command. rewrite Hcmd.
  match goal with
  | |- context [bind get_users ?k] => set (report := k)
  end.
  exec. rewrite Hlist. subst report. cbv beta.
  unfold py_len, py_iter. exec.
  destruct users as [| u rest]; [reflexivity |].
  cbn [py_truthy]. exec.
  rewrite (for_each_emits is_user_record
             (fun user => (INFO, ("- " ++ py_str (display_name user))%string))
             (u :: rest)).
  - now rewrite !emit_emit.
  - intros x w' Hx. unfold is_user_record in Hx. unfold display_name.
    destruct x as [| | | | | | entries]; try discriminate.
    unfold py_get.
    destruct (dict_lookup "metadata" entries) as [[| | | | | | metadata] |];
      try discriminate; unfold ret; simpl; [| reflexivity].
    destruct (dict_lookup "name" metadata); reflexivity.
  - exact Hrecords.
Qed.

(** X11: [list-groups] on a list of group records logs the number of
    groups and, when there is any, a heading and one line for each group
    with its name ([Unknown] without one) and the number of its members
    (0 without a [users] entry). *)
Theorem list_groups_report
    (args : Namespace) (groups : list pyval) (w w1 : World) :
  command_is args "list-groups" = true ->
  get_groups (emit [(INFO, "Getting list of groups...")] w)
    = (Ret (PList groups), w1) ->
  forallb is_group_record groups = true ->
  handle_command args w =
  (Ret tt,
   emit ((INFO, ("Found " ++ str_of_nat (List.length groups) ++ " groups")%string)
         :: match groups with
            | [] => []
            | _ => (INFO, "Group list:")
                   :: map (fun group =>
                             (INFO, ("- " ++ py_str (display_name group)
                                     ++ " (Users: "
                                     ++ str_of_nat (member_count group)
                                     ++ ")")%string))
                          groups
            end) w1).
Proof.
  intros Hcmd Hlist Hrecords. pose proof (command_is_name _ _ Hcmd) as Hcmd'; clear Hcmd; rename Hcmd' into Hcmd.
  unfold handle_command. rewrite !Hcmd.
  change (String.eqb "list-groups" "list-users") with false.
  change (String.eqb "list-groups" "create-user") with false.
  change (String.eqb "list-groups" "delete-user") with false.
  change (String.eqb "list-groups" "add-to-group") with false.
  change (String.eqb "list-groups" "list-groups") with true.
  cbv beta iota.
  match goal with
  | |- context [bind get_groups ?k] => set (report := k)
  end.
  exec. rewrite Hlist. subst report. cbv beta.
  unfold py_len at 1. unfold py_iter. exec.
  destruct groups as [| g rest]; [reflexivity |].
  cbn [py_truthy]. exec.
  rewrite (for_each_emits is_group_record
             (fun group =>
                (INFO, ("- " ++ py_str (display_name group) ++ " (Users: "
                        ++ str_of_nat (member_count group) ++ ")")%string))
             (g :: rest)).
  - now rewrite !emit_emit.
  - intros x w' Hx. unfold is_group_record in Hx.
    unfold display_name, member_count.
    destruct x as [| | | | | | entries]; try discriminate.
    apply andb_true_iff in Hx. destruct Hx as [Hm Hu].
    unfold py_get, py_len.
    destruct (dict_lookup "metadata" entries) as [[| | | | | | metadata] |];
      try discriminate; unfold ret; simpl;
      [destruct (dict_lookup "name" metadata) |];
      destruct (dict_lookup "users" entries) as [[| | | | | |] |];
      try discriminate; reflexivity.
  - exact Hrecords.
Qed.

Lemma create_user_world username groups w :
  succeeds (calls w) ["create"; "user"; username] = true ->
  snd (create_user username (Some groups) w) =
  snd (for_each groups (create_user_group username)
         (emit [(INFO, ("User '" ++ username ++ "' created successfully")%string)]
            (after_call ["create"; "user"; username] w))).
Proof.
  intros Hc. unfold create_user. exec. rewrite Hc. exec.
  destruct groups as [| g rest]; [reflexivity |].
  match goal with
  | |- context [for_each ?l ?b ?w0] =>
      pose proof (for_each_groups_returns username l w0) as Hret;
      destruct (for_each l b w0) as [[[] | e] w1]
  end; simpl in Hret; [reflexivity | discriminate].
Qed.

(** X19: the groups are handled from left to right: the run of
    [create_user] on a list followed by more groups ends where the loop
    over the further groups ends when started from the world the run on the
    first list leaves. *)
Theorem create_user_groups_in_order
    (username : string) (first more : list string) (w : World) :
  succeeds (calls w) ["create"; "user"; username] = true ->
  snd (create_user username (Some (first ++ more)) w) =
  snd (for_each more (create_user_group username)
         (snd (create_user username (Some first) w))).
Proof.
  intros Hc.
  rewrite (create_user_world username (first ++ more) w Hc).
  rewrite (create_user_world username first w Hc).
  now rewrite for_each_groups_app.
Qed.

(** *** The calls of each subcommand *)

Lemma quiet_py_len v : quiet (py_len v).
Proof. destruct v; intros w; reflexivity. Qed.

Lemma quiet_for_each {A} (xs : list A) (body : A -> M unit) :
  (forall x, quiet (body x)) -> quiet (for_each xs body).
Proof.
  intros Hbody. induction xs as [| x rest IH]; simpl.
  - apply quiet_ret.
  - apply quiet_bind; [apply Hbody | intros _; exact IH].
Qed.

Lemma get_groups_calls w :
  calls (snd (get_groups w)) = calls w ++ [["oc"; "get"; "groups"; "-o"; "json"]].
Proof.
  unfold get_groups. exec.
  destruct (succeeds (calls w) _); exec; [| reflexivity].
  destruct (json_loads _) as [data | | e]; exec; try reflexivity.
  destruct data; reflexivity.
Qed.

Lemma handle_list_users_calls args w :
  command_is args "list-users" = true ->
  calls (snd (handle_command args w))
    = calls w ++ [["oc"; "get"; "users"; "-o"; "json"]].
Proof.
  intros Hcmd. unfold handle_command. rewrite Hcmd.
  match goal with
  | |- context [bind get_users ?k] => set (report := k)
  end.
  assert (Hreport : forall v, quiet (report v)).
  { intros v. subst report. cbv beta.
    apply quiet_bind; [apply quiet_py_len |]. intros n.
    apply quiet_bind; [apply quiet_logger |]. intros _.
    destruct (py_truthy v); [| apply quiet_ret].
    apply quiet_bind; [apply quiet_logger |]. intros _.
    apply quiet_bind; [apply quiet_py_iter |]. intros items.
    apply quiet_for_each. intros user.
    apply quiet_bind; [apply quiet_py_get |]. intros metadata.
    apply quiet_bind; [apply quiet_py_get |]. intros name.
    apply quiet_logger. }
  clearbody report. exec.
  match goal with
  | |- context [get_users ?w'] =>
      pose proof (get_users_calls w') as Hcalls;
      destruct (get_users w') as [[v | e] wu]
  end; simpl in Hcalls.
  - now rewrite Hreport.
  - exact Hcalls.
Qed.

Lemma handle_list_groups_calls args w :
  command_is args "list-groups" = true ->
  calls (snd (handle_command args w))
    = calls w ++ [["oc"; "get"; "groups"; "-o"; "json"]].
Proof.
  intros Hcmd. pose proof (command_is_name _ _ Hcmd) as Hcmd'; clear Hcmd; rename Hcmd' into Hcmd.
  unfold handle_command. rewrite !Hcmd.
  change (String.eqb "list-groups" "list-users") with false.
  change (String.eqb "list-groups" "create-user") with false.
  change (String.eqb "list-groups" "delete-user") with false.
  change (String.eqb "list-groups" "add-to-group") with false.
  change (String.eqb "list-groups" "list-groups") with true.
  cbv beta iota.
  match goal with
  | |- context [bind get_groups ?k] => set (report := k)
  end.
  assert (Hreport : forall v, quiet (report v)).
  { intros v. subst report. cbv beta.
    apply quiet_bind; [apply quiet_py_len |]. intros n.
    apply quiet_bind; [apply quiet_logger |]. intros _.
    destruct (py_truthy v); [| apply quiet_ret].
    apply quiet_bind; [apply quiet_logger |]. intros _.
    apply quiet_bind; [apply quiet_py_iter |]. intros items.
    apply quiet_for_each. intros group.
    apply quiet_bind; [apply quiet_py_get |]. intros metadata.
    apply quiet_bind; [apply quiet_py_get |]. intros name.
    apply quiet_bind; [apply quiet_py_get |]. intros users.
    apply quiet_bind; [apply quiet_py_len |]. intros m.
    apply quiet_logger. }
  clearbody report. exec.
  match goal with
  | |- context [get_groups ?w'] =>
      pose proof (get_groups_calls w') as Hcalls;
      destruct (get_groups w') as [[v | e] wg]
  end; simpl in Hcalls.
  - now rewrite Hreport.
  - exact Hcalls.
Qed.

(** X12: [list-users] and [list-groups] only read: over the whole run the
    binary is asked for the connection check and then for the one list,
    whatever the list turns out to be. *)
Theorem list_commands_only_read (args : Namespace) (w : World) :
  let whoami := ["oc"; "whoami"] in
  let project := ["oc"; "project"] in
  (command_is args "list-users" = true ->
     exists n,
       calls (snd (main args w))
         = calls w ++ firstn n [whoami; project;
                                ["oc"; "get"; "users"; "-o"; "json"]]) /\
  (command_is args "list-groups" = true ->
     exists n,
       calls (snd (main args w))
         = calls w ++ firstn n [whoami; project;
                                ["oc"; "get"; "groups"; "-o"; "json"]]).
Proof.
  cbv zeta. split; intros Hcmd.
  - destruct (check_connection_cases w) as [[Hr Hc] | [Hr Hc]].
    + rewrite (main_not_connected args w Hr). simpl.
      destruct Hc as [-> | ->]; [now exists 1%nat | now exists 2%nat].
    + rewrite (main_connected args w Hr).
      rewrite (handle_list_users_calls args _ Hcmd), Hc, <- app_assoc.
      now exists 3%nat.
  - destruct (check_connection_cases w) as [[Hr Hc] | [Hr Hc]].
    + rewrite (main_not_connected args w Hr). simpl.
      destruct Hc as [-> | ->]; [now exists 1%nat | now exists 2%nat].
    + rewrite (main_connected args w Hr).
      rewrite (handle_list_groups_calls args _ Hcmd), Hc, <- app_assoc.
      now exists 3%nat.
Qed.

Lemma add_user_to_group_calls username group w :
  exists made,
    calls (snd (add_user_to_group username group w)) = calls w ++ made /\
    (2 <= List.length made <= 3)%nat /\
    Forall (group_call username [group]) made.
Proof.
  assert (Hin : In group [group]) by now left.
  unfold add_user_to_group. exec.
  destruct (succeeds (calls w) ["get"; "group"; group]); exec.
  - exists [["oc"; "get"; "group"; group];
            ["oc"; "adm"; "groups"; "add-users"; group; username]].
    split; [| split; [simpl; lia |]].
    + destruct (succeeds _ ["adm"; "groups"; "add-users"; group; username]);
        exec; now rewrite <- app_assoc.
    + repeat constructor; exists group; auto.
  - destruct (succeeds _ ["adm"; "groups"; "new"; group]); exec.
    + exists [["oc"; "get"; "group"; group];
              ["oc"; "adm"; "groups"; "new"; group];
              ["oc"; "adm"; "groups"; "add-users"; group; username]].
      split; [| split; [simpl; lia |]].
      * destruct (succeeds _ ["adm"; "groups"; "add-users"; group; username]);
          exec; now repeat rewrite <- app_assoc.
      * repeat constructor; exists group; auto.
    + exists [["oc"; "get"; "group"; group];
              ["oc"; "adm"; "groups"; "new"; group]].
      split; [now rewrite <- app_assoc | split; [simpl; lia |]].
      repeat constructor; exists group; auto.
Qed.

(** X13: once connected, [delete-user] asks the binary for the one
    deletion and [add-to-group] for two or three calls, each of them the
    query, the creation or the membership call of the group named. *)
Theorem mutation_commands_calls (args : Namespace) (w : World) :
  fst (check_connection w) = Ret true ->
  let connection := [["oc"; "whoami"]; ["oc"; "project"]] in
  (command_is args "delete-user" = true ->
     calls (snd (main args w))
       = calls w ++ connection ++ [["oc"; "delete"; "user"; username args]]) /\
  (command_is args "add-to-group" = true ->
     exists made,
       calls (snd (main args w)) = calls w ++ connection ++ made /\
       (2 <= List.length made <= 3)%nat /\
       Forall (group_call (username args) [group args]) made).
Proof.
  cbv zeta. intros Hr.
  assert (Hc : calls (snd (check_connection w))
               = calls w ++ [["oc"; "whoami"]; ["oc"; "project"]]).
  { destruct (check_connection_cases w) as [[Hno _] | [_ Hc]]; [| exact Hc].
    rewrite Hno in Hr. discriminate. }
  rewrite (main_connected args w Hr).
  set (w1 := snd (check_connection w)) in *. clearbody w1.
  split; intros Hcmd; pose proof (command_is_name _ _ Hcmd) as Hcmd'; clear Hcmd; rename Hcmd' into Hcmd;
    unfold handle_command; rewrite !Hcmd.
  - change (String.eqb "delete-user" "list-users") with false.
    change (String.eqb "delete-user" "create-user") with false.
    change (String.eqb "delete-user" "delete-user") with true.
    cbv beta iota zeta. unfold delete_user. exec.
    destruct (succeeds _ ["delete"; "user"; username args]); exec;
      now rewrite Hc, <- app_assoc.
  - change (String.eqb "add-to-group" "list-users") with false.
    change (String.eqb "add-to-group" "create-user") with false.
    change (String.eqb "add-to-group" "delete-user") with false.
    change (String.eqb "add-to-group" "add-to-group") with true.
    cbv beta iota zeta. exec.
    match goal with
    | |- context [add_user_to_group ?u ?g ?w'] =>
        destruct (add_user_to_group_calls u g w') as (made & Hmade & Hlen & Hall);
        destruct (add_user_to_group u g w') as [[[|] | e] wa]
    end; simpl in Hmade; exists made; exec;
      (split; [rewrite Hmade, Hc; now rewrite <- app_assoc | now split]).
Qed.

(** *** The usage help *)

Lemma no_help_ret {A} (a : A) : no_help (ret a).
Proof. intros w. reflexivity. Qed.

Lemma no_help_raise {A} e : no_help (@raise A e).
Proof. intros w. reflexivity. Qed.

Lemma no_help_logger l msg : no_help (logger l msg).
Proof.
  intros w. unfold logger. destruct (levelno INFO <=? levelno l); reflexivity.
Qed.

Lemma no_help_bind {A B} (m : M A) (k : A -> M B) :
  no_help m -> (forall a, no_help (k a)) -> no_help (bind m k).
Proof.
  intros Hm Hk w. unfold bind. specialize (Hm w).
  destruct (m w) as [[a | e] w']; simpl in Hm; [| exact Hm].
  now rewrite Hk.
Qed.

Lemma no_help_run command : no_help (run_oc_command command).
Proof. intros w. now rewrite run_oc_command_eq. Qed.

Lemma no_help_py_get v key default : no_help (py_get v key default).
Proof. destruct v; intros w; reflexivity. Qed.

Lemma no_help_py_len v : no_help (py_len v).
Proof. destruct v; intros w; reflexivity. Qed.

Lemma no_help_py_iter v : no_help (py_iter v).
Proof. destruct v; intros w; reflexivity. Qed.

Lemma no_help_for_each {A} (xs : list A) (body : A -> M unit) :
  (forall x, no_help (body x)) -> no_help (for_each xs body).
Proof.
  intros Hbody. induction xs as [| x rest IH]; simpl.
  - apply no_help_ret.
  - apply no_help_bind; [apply Hbody | intros _; exact IH].
Qed.

Lemma no_help_py_any {A} (xs : list A) (test : A -> M bool) :
  (forall x, no_help (test x)) -> no_help (py_any xs test).
Proof.
  intros Htest. induction xs as [| x rest IH]; simpl.
  - apply no_help_ret.
  - apply no_help_bind; [apply Htest |].
    intros [|]; [apply no_help_ret | exact IH].
Qed.

(** Walk through a computation built from the pieces above. *)
Ltac no_help_walk :=
  repeat first
    [ apply no_help_ret | apply no_help_raise | apply no_help_logger
    | apply no_help_run | apply no_help_py_get | apply no_help_py_len
    | apply no_help_py_iter | apply no_help_for_each | apply no_help_py_any
    | apply no_help_bind
    | progress (cbv beta iota zeta)
    | match goal with
      | |- forall _ : _ * _, no_help _ => intros [? ?]
      | |- forall _, no_help _ => intro
      | |- no_help (if ?b then _ else _) => destruct b
      | |- no_help (match ?x with _ => _ end) => destruct x
      end ].

Lemma no_help_get_users : no_help get_users.
Proof. unfold get_users. no_help_walk. Qed.

Lemma no_help_get_groups : no_help get_groups.
Proof. unfold get_groups. no_help_walk. Qed.

Lemma no_help_create_user username groups : no_help (create_user username groups).
Proof. unfold create_user, create_user_group. no_help_walk. Qed.

Lemma no_help_delete_user username : no_help (delete_user username).
Proof. unfold delete_user. no_help_walk. Qed.

Lemma no_help_add_user_to_group username group :
  no_help (add_user_to_group username group).
Proof. unfold add_user_to_group. no_help_walk. Qed.

Lemma no_help_check_connection : no_help check_connection.
Proof. unfold check_connection, is_logged_in. no_help_walk. Qed.

Lemma no_help_handle_command args :
  recognized args = true -> no_help (handle_command args).
Proof.
  intros Hrec. unfold handle_command.
  destruct (command_is args "list-users") eqn:H1.
  { pose proof no_help_get_users. no_help_walk; assumption. }
  destruct (command_is args "create-user") eqn:H2.
  { pose proof no_help_get_users. pose proof no_help_create_user.
    no_help_walk; auto. }
  destruct (command_is args "delete-user") eqn:H3.
  { pose proof no_help_delete_user. no_help_walk; auto. }
  destruct (command_is args "add-to-group") eqn:H4.
  { pose proof no_help_add_user_to_group. no_help_walk; auto. }
  destruct (command_is args "list-groups") eqn:H5.
  { pose proof no_help_get_groups. no_help_walk; assumption. }
  unfold recognized, subcommands in Hrec. simpl in Hrec.
  rewrite H1, H2, H3, H4, H5 in Hrec. discriminate.
Qed.

(** After the arguments are parsed the usage help is printed once when
    the connection check has succeeded and there is no subcommand, and not
    otherwise. *)
Lemma main_help_printed (args : Namespace) (w : World) :
  help_printed (snd (main args w)) =
  match fst (check_connection w) with
  | Ret true =>
      if recognized args then help_printed w else S (help_printed w)
  | _ => help_printed w
  end.
Proof.
  pose proof (no_help_check_connection w) as Hcheck.
  destruct (check_connection_cases w) as [[Hr _] | [Hr _]]; rewrite Hr.
  - now rewrite (main_not_connected args w Hr).
  - rewrite (main_connected args w Hr).
    destruct (recognized args) eqn:Hrec.
    + now rewrite (no_help_handle_command args Hrec).
    + rewrite (handle_command_unrecognized args _ Hrec). simpl.
      now rewrite Hcheck.
Qed.

(** *** More on [create-user] *)

(** X15: when the user was created but the list query of the
    verification fails, the dispatcher reports that the user was not found
    after creation, and returns. *)
Theorem create_user_failed_relist (args : Namespace) (w w2 : World) :
  let name := username args in
  let relist := ["get"; "users"; "-o"; "json"] in
  command_is args "create-user" = true ->
  create_user name (groups_or_none (groups args))
    (emit [(INFO, ("Creating user '" ++ name ++ "'...")%string)] w)
    = (Ret true, w2) ->
  succeeds (calls w2) relist = false ->
  handle_command args w =
  (Ret tt,
   mkWorld (calls w2 ++ ["oc" :: relist])
     (logs w2
        ++ [(INFO, ("Successfully created user '" ++ name ++ "'")%string)]
        ++ failure_report (calls w2) relist
        ++ [(ERROR, "Failed to get users");
            (WARNING, ("User '" ++ name ++ "' was not found after creation")%string)])
     (help_printed w2)).
Proof.
  cbv zeta. intros Hcmd Hcreate Hlist. pose proof (command_is_name _ _ Hcmd) as Hcmd'; clear Hcmd; rename Hcmd' into Hcmd.
  unfold handle_command. rewrite !Hcmd.
  change (String.eqb "create-user" "list-users") with false.
  change (String.eqb "create-user" "create-user") with true.
  cbv beta iota zeta. exec. rewrite Hcreate. exec.
  unfold get_users. exec. rewrite Hlist. exec.
  unfold py_iter. exec. cbn [py_any]. exec. same_world.
Qed.

(** X16: when the user-create call fails, [create-user] makes no other
    call, whatever groups were given: the failure is logged by
    [create_user] and again by the dispatcher, and there is no
    verification. *)
Theorem create_user_command_failure (args : Namespace) (w : World) :
  let name := username args in
  let create := ["create"; "user"; name] in
  command_is args "create-user" = true ->
  succeeds (calls w) create = false ->
  handle_command args w =
  (Ret tt,
   mkWorld (calls w ++ ["oc" :: create])
     (logs w
        ++ [(INFO, ("Creating user '" ++ name ++ "'...")%string)]
        ++ failure_report (calls w) create
        ++ [(ERROR, ("Failed to create user '" ++ name ++ "': "
                     ++ output_of (calls w) create)%string);
            (ERROR, ("Failed to create user '" ++ name ++ "'")%string)])
     (help_printed w)).
Proof.
  cbv zeta. intros Hcmd Hcreate. pose proof (command_is_name _ _ Hcmd) as Hcmd'; clear Hcmd; rename Hcmd' into Hcmd.
  unfold handle_command. rewrite !Hcmd.
  change (String.eqb "create-user" "list-users") with false.
  change (String.eqb "create-user" "create-user") with true.
  cbv beta iota zeta. unfold create_user. exec. rewrite Hcreate. exec.
  same_world.
Qed.

Lemma py_any_first_match {A} (before : list A) (x : A) (rest : list A)
    (test : A -> M bool) w :
  (forall y, In y before -> exists b, test y w = (Ret b, w)) ->
  test x w = (Ret true, w) ->
  py_any (before ++ x :: rest) test w = (Ret true, w).
Proof.
  intros Hbefore Hx. induction before as [| y before IH]; cbn [app py_any].
  - unfold bind. now rewrite Hx.
  - unfold bind. destruct (Hbefore y (or_introl eq_refl)) as [b Hy].
    rewrite Hy. destruct b; [reflexivity |].
    apply IH. intros z Hz. apply Hbefore. now right.
Qed.

Lemma named_is_user_record name v : named name v -> is_user_record v = true.
Proof.
  intros (entries & metadata & -> & Hm & _). unfold is_user_record.
  now rewrite Hm.
Qed.

(** X18: the verification reads the list only up to the first user with
    the created name: when the records before it are user records the
    "Verified" line is logged whatever follows it in the list. *)
Theorem verification_stops_at_first_match
    (args : Namespace) (before : list pyval) (user : pyval)
    (rest : list pyval) (w w2 w3 : World) :
  let name := username args in
  command_is args "create-user" = true ->
  create_user name (groups_or_none (groups args))
    (emit [(INFO, ("Creating user '" ++ name ++ "'...")%string)] w)
    = (Ret true, w2) ->
  get_users
    (emit [(INFO, ("Successfully created user '" ++ name ++ "'")%string)] w2)
    = (Ret (PList (before ++ user :: rest)), w3) ->
  forallb is_user_record before = true ->
  named name user ->
  handle_command args w =
  (Ret tt,
   emit [(INFO, ("Verified user '" ++ name ++ "' exists in the system")%string)]
     w3).
Proof.
  cbv zeta. intros Hcmd Hcreate Hlist Hbefore Huser.
  pose proof (command_is_name _ _ Hcmd) as Hcmd'; clear Hcmd; rename Hcmd' into Hcmd.
  unfold handle_command. rewrite !Hcmd.
  change (String.eqb "create-user" "list-users") with false.
  change (String.eqb "create-user" "create-user") with true.
  cbv beta iota zeta. exec. rewrite Hcreate. exec. rewrite Hlist. exec.
  unfold py_iter. exec.
  rewrite (py_any_first_match before user rest _ w3).
  - exec. reflexivity.
  - intros y Hy. exists (user_has_name (username args) y).
    apply verification_test.
    rewrite forallb_forall in Hbefore. now apply Hbefore.
  - pose proof (verification_test (username args) user w3
                  (named_is_user_record _ _ Huser)) as Htest.
    apply user_has_name_named in Huser. rewrite Huser in Htest. exact Htest.
Qed.

(** *** The whole of [main] *)

Lemma recognized_command args :
  recognized args = match command args with Some _ => true | None => false end.
Proof.
  unfold recognized, subcommands, command_is.
  destruct (command args) as [[] |]; reflexivity.
Qed.

(** X14: over a whole run the help is printed exactly once in two
    cases, when the parser prints it itself ([-h]) and when the command
    line has no subcommand and the connection check has succeeded, and
    never otherwise: not on a usage error, not after a failed connection
    check, not by any of the five subcommands. *)
Theorem help_printed_only_without_command (argv : list string) (w : World) :
  help_printed (snd (main_from_argv argv w)) =
  match parser argv with
  | HelpExit => S (help_printed w)
  | UsageExit => help_printed w
  | Parsed_args args =>
      match command args, fst (check_connection w) with
      | None, Ret true => S (help_printed w)
      | _, _ => help_printed w
      end
  end.
Proof.
  destruct (parser argv) as [args | |] eqn:Hparsed.
  - rewrite (main_from_argv_parsed argv args w Hparsed).
    rewrite main_help_printed, recognized_command.
    destruct (command args); destruct (fst (check_connection w)) as [[|] | e];
      reflexivity.
  - unfold main_from_argv, parse_args. rewrite Hparsed. reflexivity.
  - unfold main_from_argv, parse_args. rewrite Hparsed. reflexivity.
Qed.

(** X17: when the list queries hand back user and group records, the
    exit status of a whole run is 0 when the parser prints the help, 2 on a
    usage error and, once the arguments are parsed, 1 when the connection
    check fails and 0 when it succeeds, whatever the subcommand and
    whatever the operation returned. *)
Theorem exit_status_on_schema (argv : list string) (w : World) :
  users_schema -> groups_schema ->
  exit_status (fst (main_from_argv argv w)) =
  match parser argv with
  | HelpExit => 0
  | UsageExit => 2
  | Parsed_args _ =>
      match fst (check_connection w) with
      | Ret true => 0
      | _ => 1
      end
  end.
Proof.
  intros Husers Hgroups.
  destruct (parser argv) as [args | |] eqn:Hparsed.
  - rewrite (main_from_argv_parsed argv args w Hparsed).
    now apply main_exit_status_on_schema.
  - unfold main_from_argv, parse_args. rewrite Hparsed. reflexivity.
  - unfold main_from_argv, parse_args. rewrite Hparsed. reflexivity.
Qed.

End Script.

(** ** Runs of the script *)

(** [list-users] on a list with the one user alice. *)
Example list_users_alice :
  main (oc_table (cluster_listing (listing_text "alice"))) sample_loads str_plain
    list_users initial
  = (Ret tt,
     mkWorld
       [["oc"; "whoami"]; ["oc"; "project"]; ["oc"; "get"; "users"; "-o"; "json"]]
       [(INFO, "Connected to OpenShift. Current project: Using project default");
        (INFO, "Getting list of users...");
        (INFO, "Found 1 users");
        (INFO, "User list:");
        (INFO, "- alice")]
       0).
Proof. reflexivity. Qed.

(** [list-users] on output that is not JSON. *)
Example list_users_html :
  main (oc_table (cluster_listing "<html>")) sample_loads str_plain
    list_users initial
  = (Ret tt,
     mkWorld
       [["oc"; "whoami"]; ["oc"; "project"]; ["oc"; "get"; "users"; "-o"; "json"]]
       [(INFO, "Connected to OpenShift. Current project: Using project default");
        (INFO, "Getting list of users...");
        (ERROR, "Failed to parse user data as JSON");
        (INFO, "Found 0 users")]
       0).
Proof. reflexivity. Qed.

(** [create-user bob --groups qa dev]: [dev] is skipped, the run goes on. *)
Example create_bob_qa_dev :
  main (oc_table cluster) sample_loads str_plain
    (create_bob (Some ["qa"; "dev"])) initial
  = (Ret tt,
     mkWorld
       [["oc"; "whoami"]; ["oc"; "project"];
        ["oc"; "create"; "user"; "bob"];
        ["oc"; "get"; "group"; "qa"];
        ["oc"; "adm"; "groups"; "add-users"; "qa"; "bob"];
        ["oc"; "get"; "group"; "dev"];
        ["oc"; "adm"; "groups"; "new"; "dev"];
        ["oc"; "get"; "users"; "-o"; "json"]]
       [(INFO, "Connected to OpenShift. Current project: Using project default");
        (INFO, "Creating user 'bob'...");
        (INFO, "User 'bob' created successfully");
        (INFO, "Added user 'bob' to group 'qa'");
        (ERROR, "Command failed: oc get group dev");
        (ERROR, "Error: Error from server (NotFound)");
        (INFO, "Group 'dev' doesn't exist, creating it");
        (ERROR, "Command failed: oc adm groups new dev");
        (ERROR, "Error: Error from server (Forbidden)");
        (WARNING, "Failed to create group 'dev'");
        (INFO, "Successfully created user 'bob'");
        (INFO, "Verified user 'bob' exists in the system")]
       0).
Proof. reflexivity. Qed.

(** The claim of C1 fails: with no subcommand, on a cluster the user is
    logged in to, the binary is called twice before the help is printed. *)
Lemma no_subcommand_calls_the_binary :
  let run := main (oc_table logged_in) sample_loads str_plain no_subcommand initial in
  recognized no_subcommand = false /\
  calls (snd run) = [["oc"; "whoami"]; ["oc"; "project"]] /\
  help_printed (snd run) = 1%nat /\
  calls (snd run) <> calls initial.
Proof.
  cbv zeta. repeat split; try reflexivity.
  vm_compute. discriminate.
Qed.

(** ** The theorems at concrete runs *)

(** An unrecognized subcommand: nothing is called.  No subcommand, logged
    in: two calls, then the help. *)
Lemma main_without_command_witness :
  sample_parser ["bogus"] = UsageExit /\
  main_from_argv (oc_table logged_in) sample_loads str_plain sample_parser
    ["bogus"] initial
  = (Raise (SystemExit 2), initial) /\
  sample_parser [] = Parsed_args no_subcommand /\
  command no_subcommand = None /\
  main_from_argv (oc_table logged_in) sample_loads str_plain sample_parser
    [] initial
  = (Ret tt,
     mkWorld [["oc"; "whoami"]; ["oc"; "project"]]
       [(INFO, "Connected to OpenShift. Current project: Using project default");
        (ERROR, "No command specified")]
       1).
Proof.
  split; [reflexivity |]. split.
  { apply (main_without_command (oc_table logged_in) sample_loads str_plain
             sample_parser ["bogus"] initial).
    reflexivity. }
  split; [reflexivity |]. split; [reflexivity |].
  apply (proj2 (main_without_command (oc_table logged_in) sample_loads str_plain
                  sample_parser [] initial) no_subcommand eq_refl eq_refl).
  reflexivity.
Defined.

(** [create_user bob [qa; dev; ops]]: [dev] fails twice and is left, [ops]
    is still handled. *)
Lemma create_user_group_failures_isolated_witness :
  let oc := oc_table cluster in
  let run := create_user oc "bob" (Some (["qa"] ++ "dev" :: ["ops"])) initial in
  succeeds oc [] ["create"; "user"; "bob"] = true /\
  fst run = Ret true /\
  calls (snd run) =
    [["oc"; "create"; "user"; "bob"];
     ["oc"; "get"; "group"; "qa"];
     ["oc"; "adm"; "groups"; "add-users"; "qa"; "bob"];
     ["oc"; "get"; "group"; "dev"];
     ["oc"; "adm"; "groups"; "new"; "dev"];
     ["oc"; "get"; "group"; "ops"];
     ["oc"; "adm"; "groups"; "new"; "ops"]].
Proof.
  cbv zeta. split; [reflexivity |].
  rewrite (create_user_group_failures_isolated (oc_table cluster)
             "bob" ["qa"] "dev" ["ops"] initial eq_refl eq_refl eq_refl).
  split; reflexivity.
Defined.

(** [add-to-group dave ops] where neither the query nor the creation of
    [ops] succeeds. *)
Lemma add_user_to_group_fatal_witness :
  let oc := oc_table logged_in in
  let run := add_user_to_group oc "dave" "ops" initial in
  succeeds oc [] ["get"; "group"; "ops"] = false /\
  succeeds oc [["oc"; "get"; "group"; "ops"]] ["adm"; "groups"; "new"; "ops"] = false /\
  fst run = Ret false /\
  calls (snd run) =
    [["oc"; "get"; "group"; "ops"]; ["oc"; "adm"; "groups"; "new"; "ops"]].
Proof.
  cbv zeta. split; [reflexivity |]. split; [reflexivity |].
  apply (add_user_to_group_fatal (oc_table logged_in) "dave" "ops" initial);
    reflexivity.
Defined.

(** The user list is a page of HTML. *)
Lemma list_queries_swallow_parse_errors_witness :
  let oc := oc_table (cluster_listing "<html>") in
  succeeds oc [] ["get"; "users"; "-o"; "json"] = true /\
  sample_loads "<html>" = DecodeError /\
  get_users oc sample_loads initial
  = (Ret (PList []),
     mkWorld [["oc"; "get"; "users"; "-o"; "json"]]
       [(ERROR, "Failed to parse user data as JSON")] 0).
Proof.
  cbv zeta. split; [reflexivity |]. split; [reflexivity |].
  apply (list_queries_swallow_parse_errors
           (oc_table (cluster_listing "<html>")) sample_loads initial);
    reflexivity.
Defined.

(** [oc whoami] exits with status 0 and prints the user; [oc whoami]
    exits with status 0 and prints a byte that is not text. *)
Lemma run_oc_command_result_witness :
  oc_table logged_in [] ["oc"; "whoami"] = Exited 0 "admin" "" /\
  fst (run_oc_command (oc_table logged_in) ["whoami"] initial)
  = Ret (true, "admin") /\
  oc_table binary_output [] ["oc"; "whoami"]
  = Undecodable 0
      "'utf-8' codec can't decode byte 0xff in position 0: invalid start byte" /\
  fst (run_oc_command (oc_table binary_output) ["whoami"] initial)
  = Ret (false,
         "'utf-8' codec can't decode byte 0xff in position 0: invalid start byte").
Proof.
  split; [reflexivity |]. split.
  { apply (run_oc_command_result (oc_table logged_in) ["whoami"] initial)
      with (stderr := ""); reflexivity. }
  split; [reflexivity |].
  apply (proj1 (proj2 (proj2
           (run_oc_command_result (oc_table binary_output) ["whoami"] initial))))
    with (returncode := 0); reflexivity.
Defined.

(** Both queries of the connection check succeed. *)
Lemma check_connection_steps_witness :
  let oc := oc_table logged_in in
  succeeds oc [] ["whoami"] = true /\
  succeeds oc [["oc"; "whoami"]] ["project"] = true /\
  check_connection oc initial
  = (Ret true,
     mkWorld [["oc"; "whoami"]; ["oc"; "project"]]
       [(INFO, "Connected to OpenShift. Current project: Using project default")]
       0).
Proof.
  cbv zeta. split; [reflexivity |]. split; [reflexivity |].
  apply (check_connection_steps (oc_table logged_in) initial); reflexivity.
Defined.

(** [create-user bob] on a cluster whose user list then shows [bob]. *)
Lemma create_user_verification_witness :
  let oc := oc_table cluster in
  let args := create_bob None in
  let w2 := snd (create_user oc "bob" None
                   (emit [(INFO, "Creating user 'bob'...")] initial)) in
  let w3 := snd (get_users oc sample_loads
                   (emit [(INFO, "Successfully created user 'bob'")] w2)) in
  let users := [PDict [("metadata", PDict [("name", PStr "bob")])]] in
  command_is args "create-user" = true /\
  forallb is_user_record users = true /\
  calls w3 = calls w2 ++ [["oc"; "get"; "users"; "-o"; "json"]] /\
  exists record,
    handle_command oc sample_loads str_plain args initial
      = (Ret tt, emit [record] w3) /\
    (record = (INFO, "Verified user 'bob' exists in the system")
       <-> Exists (named "bob") users) /\
    (record = (WARNING, "User 'bob' was not found after creation")
       <-> ~ Exists (named "bob") users).
Proof.
  cbv zeta. split; [reflexivity |]. split; [reflexivity |].
  apply (create_user_verification (oc_table cluster) sample_loads str_plain
           (create_bob None)
           [PDict [("metadata", PDict [("name", PStr "bob")])]]
           initial); reflexivity.
Defined.

(** [create-user bob --groups] and [create-user bob] on [cluster]: the
    connection check, the creation and the verification list. *)
Lemma empty_groups_flag_witness :
  let oc := oc_table cluster in
  groups (create_bob (Some [])) = Some [] /\
  command_is (create_bob (Some [])) "create-user" = true /\
  fst (check_connection oc initial) = Ret true /\
  main oc sample_loads str_plain (create_bob (Some [])) initial
  = main oc sample_loads str_plain (create_bob None) initial /\
  calls (snd (create_user oc "bob" (groups_or_none (Some [])) initial))
  = [["oc"; "create"; "user"; "bob"]] /\
  calls (snd (main oc sample_loads str_plain (create_bob (Some [])) initial))
  = [["oc"; "whoami"]; ["oc"; "project"];
     ["oc"; "create"; "user"; "bob"];
     ["oc"; "get"; "users"; "-o"; "json"]].
Proof.
  cbv zeta. split; [reflexivity |]. split; [reflexivity |].
  split; [reflexivity |].
  pose proof (empty_groups_flag (oc_table cluster) sample_loads str_plain
                (create_bob (Some [])) initial eq_refl)
    as (_ & Hsame & Hcalls & Hmain).
  split; [exact Hsame |]. split; [exact Hcalls |].
  exact (proj1 (Hmain eq_refl) eq_refl).
Defined.

(** The user list is the empty object. *)
Lemma list_queries_without_items_witness :
  let oc := oc_table (cluster_listing "{}") in
  dict_lookup "items" [] = None /\
  succeeds oc [] ["get"; "users"; "-o"; "json"] = true /\
  sample_loads "{}" = Decoded (PDict []) /\
  get_users oc sample_loads initial
  = (Ret (PList []), mkWorld [["oc"; "get"; "users"; "-o"; "json"]] [] 0).
Proof.
  cbv zeta. split; [reflexivity |]. split; [reflexivity |]. split; [reflexivity |].
  apply (list_queries_without_items (oc_table (cluster_listing "{}"))
           sample_loads [] initial); [left |..]; reflexivity.
Defined.

(** The expected schema can be met: on [cluster] the user list is a
    list of one record and the group list is empty. *)
Lemma cluster_on_schema :
  users_schema (oc_table cluster) sample_loads /\
  groups_schema (oc_table cluster) sample_loads.
Proof.
  split; intros w.
  - exists [PDict [("metadata", PDict [("name", PStr "bob")])]]. now split.
  - exists []. now split.
Qed.

(** C6 on two runs the code can take.  The user is logged in and [oc get
    users -o json] exits with status 0.  When it prints a JSON array,
    [data.get] raises [AttributeError] inside [get_users]; when it prints an
    object whose [items] is [null], [get_users] returns [None] (not the
    list its annotation promises) and [len(users)] raises [TypeError] in
    [main].  Nothing catches either: the process ends with status 1
    although the connection check succeeded. *)
Theorem list_users_off_schema_exit_status :
  let array := oc_table (cluster_listing "[]") in
  let null_items := oc_table (cluster_listing null_items_text) in
  let run oc := main oc sample_loads str_plain list_users initial in
  fst (check_connection array initial) = Ret true /\
  sample_loads "[]" = Decoded (PList []) /\
  fst (run array) = Raise AttributeError /\
  exit_status (fst (run array)) = 1 /\
  fst (check_connection null_items initial) = Ret true /\
  sample_loads null_items_text = Decoded (PDict [("items", PNone)]) /\
  fst (run null_items) = Raise TypeError /\
  exit_status (fst (run null_items)) = 1.
Proof. cbv zeta. repeat split. Qed.

(** ** The further properties at concrete runs *)

(** [create_user bob [qa]] when the user-create call is refused. *)
Lemma create_user_result_witness :
  let oc := oc_table logged_in in
  succeeds oc [] ["create"; "user"; "bob"] = false /\
  snd (create_user oc "bob" (Some ["qa"]) initial)
  = mkWorld [["oc"; "create"; "user"; "bob"]]
      [(ERROR, "Command failed: oc create user bob");
       (ERROR, "Error: error: unknown command");
       (ERROR, "Failed to create user 'bob': error: unknown command")]
      0.
Proof.
  cbv zeta. split; [reflexivity |].
  apply (create_user_result (oc_table logged_in) "bob" (Some ["qa"]) initial).
  reflexivity.
Defined.


(** Group [qa] exists and takes [bob]. *)
Lemma create_user_group_existing_witness :
  let oc := oc_table cluster in
  succeeds oc [] ["get"; "group"; "qa"] = true /\
  create_user_group oc "bob" "qa" initial
  = (Ret tt,
     mkWorld
       [["oc"; "get"; "group"; "qa"];
        ["oc"; "adm"; "groups"; "add-users"; "qa"; "bob"]]
       [(INFO, "Added user 'bob' to group 'qa'")]
       0).
Proof.
  cbv zeta. split; [reflexivity |].
  apply (create_user_group_existing (oc_table cluster) "bob" "qa" initial).
  reflexivity.
Defined.

(** [add_user_to_group bob qa] on [cluster]: the group exists. *)
Lemma add_user_to_group_result_witness :
  let oc := oc_table cluster in
  succeeds oc [] ["get"; "group"; "qa"] = true /\
  calls (snd (add_user_to_group oc "bob" "qa" initial))
  = [["oc"; "get"; "group"; "qa"];
     ["oc"; "adm"; "groups"; "add-users"; "qa"; "bob"]].
Proof.
  cbv zeta. split; [reflexivity |].
  apply (add_user_to_group_result (oc_table cluster) "bob" "qa" initial).
  reflexivity.
Defined.

(** The users cannot be listed. *)
Lemma list_queries_failed_query_witness :
  let oc := oc_table logged_in in
  succeeds oc [] ["get"; "users"; "-o"; "json"] = false /\
  get_users oc sample_loads initial
  = (Ret (PList []),
     mkWorld [["oc"; "get"; "users"; "-o"; "json"]]
       [(ERROR, "Command failed: oc get users -o json");
        (ERROR, "Error: error: unknown command");
        (ERROR, "Failed to get users")]
       0).
Proof.
  cbv zeta. split; [reflexivity |].
  apply (list_queries_failed_query (oc_table logged_in) sample_loads initial).
  reflexivity.
Defined.

(** The user list is an object whose [items] is [null]. *)
Lemma list_queries_decoded_witness :
  let oc := oc_table (cluster_listing null_items_text) in
  succeeds oc [] ["get"; "users"; "-o"; "json"] = true /\
  sample_loads null_items_text = Decoded (PDict [("items", PNone)]) /\
  get_users oc sample_loads initial
  = (Ret PNone, mkWorld [["oc"; "get"; "users"; "-o"; "json"]] [] 0).
Proof.
  cbv zeta. split; [reflexivity |]. split; [reflexivity |].
  apply (list_queries_decoded (oc_table (cluster_listing null_items_text))
           sample_loads (PDict [("items", PNone)]) initial); reflexivity.
Defined.

(** [delete-user carol] when the user is not logged in. *)
Lemma main_stops_when_not_connected_witness :
  let oc := oc_table [] in
  fst (check_connection oc initial) = Ret false /\
  main oc sample_loads str_plain delete_carol initial
  = (Raise (SystemExit 1),
     mkWorld [["oc"; "whoami"]]
       [(ERROR, "Command failed: oc whoami");
        (ERROR, "Error: error: unknown command");
        (ERROR, "Not logged in to OpenShift cluster. Run 'oc login' first.")]
       0).
Proof.
  cbv zeta. split; [reflexivity |].
  apply (main_stops_when_not_connected (oc_table []) sample_loads str_plain
           delete_carol initial).
  reflexivity.
Defined.

(** [list-users] on the list with the one user alice. *)
Lemma list_users_report_witness :
  let oc := oc_table (cluster_listing (listing_text "alice")) in
  let users := [PDict [("metadata", PDict [("name", PStr "alice")])]] in
  command_is list_users "list-users" = true /\
  forallb is_user_record users = true /\
  handle_command oc sample_loads str_plain list_users initial
  = (Ret tt,
     mkWorld [["oc"; "get"; "users"; "-o"; "json"]]
       [(INFO, "Getting list of users...");
        (INFO, "Found 1 users");
        (INFO, "User list:");
        (INFO, "- alice")]
       0).
Proof.
  cbv zeta. split; [reflexivity |]. split; [reflexivity |].
  apply (list_users_report (oc_table (cluster_listing (listing_text "alice")))
           sample_loads str_plain list_users
           [PDict [("metadata", PDict [("name", PStr "alice")])]]
           initial
           (snd (get_users (oc_table (cluster_listing (listing_text "alice")))
                   sample_loads
                   (emit [(INFO, "Getting list of users...")] initial))));
    reflexivity.
Defined.

(** [list-groups] on [dev] with two members and a group without name. *)
Lemma list_groups_report_witness :
  let oc := oc_table cluster_groups in
  command_is list_groups "list-groups" = true /\
  handle_command oc more_loads str_plain list_groups initial
  = (Ret tt,
     mkWorld [["oc"; "get"; "groups"; "-o"; "json"]]
       [(INFO, "Getting list of groups...");
        (INFO, "Found 2 groups");
        (INFO, "Group list:");
        (INFO, "- dev (Users: 2)");
        (INFO, "- Unknown (Users: 0)")]
       0).
Proof.
  cbv zeta. split; [reflexivity |].
  apply (list_groups_report (oc_table cluster_groups) more_loads str_plain
           list_groups
           [PDict [("metadata", PDict [("name", PStr "dev")]);
                   ("users", PList [PStr "alice"; PStr "bob"])];
            PDict []]
           initial
           (snd (get_groups (oc_table cluster_groups) more_loads
                   (emit [(INFO, "Getting list of groups...")] initial))));
    reflexivity.
Defined.

(** [list-users] on a user list that is a JSON array: the run ends in an
    exception after the three calls. *)
Lemma list_commands_only_read_witness :
  let oc := oc_table (cluster_listing "[]") in
  command_is list_users "list-users" = true /\
  fst (main oc sample_loads str_plain list_users initial) = Raise AttributeError /\
  exists n,
    calls (snd (main oc sample_loads str_plain list_users initial))
    = calls initial
      ++ firstn n [["oc"; "whoami"]; ["oc"; "project"];
                   ["oc"; "get"; "users"; "-o"; "json"]].
Proof.
  cbv zeta. split; [reflexivity |]. split; [reflexivity |].
  apply (list_commands_only_read (oc_table (cluster_listing "[]")) sample_loads
           str_plain list_users initial).
  reflexivity.
Defined.

(** [delete-user carol], logged in. *)
Lemma mutation_commands_calls_witness :
  let oc := oc_table logged_in in
  fst (check_connection oc initial) = Ret true /\
  command_is delete_carol "delete-user" = true /\
  calls (snd (main oc sample_loads str_plain delete_carol initial))
  = [["oc"; "whoami"]; ["oc"; "project"]; ["oc"; "delete"; "user"; "carol"]].
Proof.
  cbv zeta. split; [reflexivity |]. split; [reflexivity |].
  apply (mutation_commands_calls (oc_table logged_in) sample_loads str_plain
           delete_carol initial); reflexivity.
Defined.

(** [create-user bob] when the users cannot be listed afterwards. *)
Lemma create_user_failed_relist_witness :
  let oc := oc_table cluster_without_list in
  let w2 := snd (create_user oc "bob" None
                   (emit [(INFO, "Creating user 'bob'...")] initial)) in
  command_is (create_bob None) "create-user" = true /\
  succeeds oc (calls w2) ["get"; "users"; "-o"; "json"] = false /\
  handle_command oc sample_loads str_plain (create_bob None) initial
  = (Ret tt,
     mkWorld
       [["oc"; "create"; "user"; "bob"]; ["oc"; "get"; "users"; "-o"; "json"]]
       [(INFO, "Creating user 'bob'...");
        (INFO, "User 'bob' created successfully");
        (INFO, "Successfully created user 'bob'");
        (ERROR, "Command failed: oc get users -o json");
        (ERROR, "Error: error: unknown command");
        (ERROR, "Failed to get users");
        (WARNING, "User 'bob' was not found after creation")]
       0).
Proof.
  cbv zeta. split; [reflexivity |]. split; [reflexivity |].
  apply (create_user_failed_relist (oc_table cluster_without_list) sample_loads
           str_plain (create_bob None) initial
           (snd (create_user (oc_table cluster_without_list) "bob" None
                   (emit [(INFO, "Creating user 'bob'...")] initial))));
    reflexivity.
Defined.

(** [create-user bob --groups qa] when the user-create call is refused. *)
Lemma create_user_command_failure_witness :
  let oc := oc_table logged_in in
  command_is (create_bob (Some ["qa"])) "create-user" = true /\
  succeeds oc [] ["create"; "user"; "bob"] = false /\
  handle_command oc sample_loads str_plain (create_bob (Some ["qa"])) initial
  = (Ret tt,
     mkWorld [["oc"; "create"; "user"; "bob"]]
       [(INFO, "Creating user 'bob'...");
        (ERROR, "Command failed: oc create user bob");
        (ERROR, "Error: error: unknown command");
        (ERROR, "Failed to create user 'bob': error: unknown command");
        (ERROR, "Failed to create user 'bob'")]
       0).
Proof.
  cbv zeta. split; [reflexivity |]. split; [reflexivity |].
  apply (create_user_command_failure (oc_table logged_in) sample_loads
           str_plain (create_bob (Some ["qa"])) initial); reflexivity.
Defined.

(** [create-user bob] when the list shows carol, bob and then a number. *)
Lemma verification_stops_at_first_match_witness :
  let oc := oc_table cluster_mixed in
  let carol := PDict [("metadata", PDict [("name", PStr "carol")])] in
  let bob := PDict [("metadata", PDict [("name", PStr "bob")])] in
  command_is (create_bob None) "create-user" = true /\
  forallb is_user_record [carol] = true /\
  named "bob" bob /\
  handle_command oc more_loads str_plain (create_bob None) initial
  = (Ret tt,
     mkWorld
       [["oc"; "create"; "user"; "bob"]; ["oc"; "get"; "users"; "-o"; "json"]]
       [(INFO, "Creating user 'bob'...");
        (INFO, "User 'bob' created successfully");
        (INFO, "Successfully created user 'bob'");
        (INFO, "Verified user 'bob' exists in the system")]
       0).
Proof.
  cbv zeta.
  assert (Hbob : named "bob" (PDict [("metadata", PDict [("name", PStr "bob")])])).
  { exists [("metadata", PDict [("name", PStr "bob")])], [("name", PStr "bob")].
    repeat split. }
  split; [reflexivity |]. split; [reflexivity |]. split; [exact Hbob |].
  apply (verification_stops_at_first_match (oc_table cluster_mixed) more_loads
           str_plain (create_bob None)
           [PDict [("metadata", PDict [("name", PStr "carol")])]]
           (PDict [("metadata", PDict [("name", PStr "bob")])])
           [PInt 5]
           initial
           (snd (create_user (oc_table cluster_mixed) "bob" None
                   (emit [(INFO, "Creating user 'bob'...")] initial)))
           (snd (get_users (oc_table cluster_mixed) more_loads
                   (emit [(INFO, "Successfully created user 'bob'")]
                      (snd (create_user (oc_table cluster_mixed) "bob" None
                              (emit [(INFO, "Creating user 'bob'...")] initial)))))));
    try reflexivity.
  exact Hbob.
Defined.

(** On [cluster] the lists follow the schema: [list-users] ends with
    status 0. *)
Lemma main_exit_status_on_schema_witness :
  let oc := oc_table cluster in
  users_schema oc sample_loads /\
  groups_schema oc sample_loads /\
  exit_status (fst (main oc sample_loads str_plain list_users initial)) = 0.
Proof.
  cbv zeta.
  assert (Husers : users_schema (oc_table cluster) sample_loads).
  { intros w. exists [PDict [("metadata", PDict [("name", PStr "bob")])]].
    split; reflexivity. }
  assert (Hgroups : groups_schema (oc_table cluster) sample_loads).
  { intros w. exists []. split; reflexivity. }
  split; [exact Husers |]. split; [exact Hgroups |].
  exact (main_exit_status_on_schema (oc_table cluster) sample_loads str_plain
           list_users initial Husers Hgroups).
Defined.

(** [create_user bob [qa; dev]] is [create_user bob [qa]] and then the
    loop over [dev]. *)
Lemma create_user_groups_in_order_witness :
  let oc := oc_table cluster in
  succeeds oc [] ["create"; "user"; "bob"] = true /\
  snd (create_user oc "bob" (Some (["qa"] ++ ["dev"])) initial)
  = snd (for_each ["dev"] (create_user_group oc "bob")
           (snd (create_user oc "bob" (Some ["qa"]) initial))).
Proof.
  cbv zeta. split; [reflexivity |].
  apply (create_user_groups_in_order (oc_table cluster) "bob" ["qa"] ["dev"]
           initial).
  reflexivity.
Defined.

(** On [cluster] the lists follow the schema: [list-users] ends with
    status 0, an unknown subcommand with status 2, [-h] with status 0. *)
Lemma exit_status_on_schema_witness :
  let oc := oc_table cluster in
  let status argv :=
    exit_status
      (fst (main_from_argv oc sample_loads str_plain sample_parser argv initial)) in
  users_schema oc sample_loads /\
  groups_schema oc sample_loads /\
  status ["list-users"] = 0 /\
  status ["bogus"] = 2 /\
  status ["-h"] = 0.
Proof.
  cbv zeta.
  assert (Husers : users_schema (oc_table cluster) sample_loads).
  { intros w. exists [PDict [("metadata", PDict [("name", PStr "bob")])]].
    split; reflexivity. }
  assert (Hgroups : groups_schema (oc_table cluster) sample_loads).
  { intros w. exists []. split; reflexivity. }
  split; [exact Husers |]. split; [exact Hgroups |].
  split; [| split].
  - exact (exit_status_on_schema (oc_table cluster) sample_loads str_plain
             sample_parser ["list-users"] initial Husers Hgroups).
  - exact (exit_status_on_schema (oc_table cluster) sample_loads str_plain
             sample_parser ["bogus"] initial Husers Hgroups).
  - exact (exit_status_on_schema (oc_table cluster) sample_loads str_plain
             sample_parser ["-h"] initial Husers Hgroups).
Defined.

(** ** Runs that end in an exception *)

(** The claim of C5 fails: [oc whoami] exits with status 0, but its output
    is not text; [subprocess.run] raises [UnicodeDecodeError] while
    decoding it and [run_oc_command] returns false with the message of the
    exception. *)
Lemma run_oc_command_undecodable_output :
  let oc := oc_table binary_output in
  let message :=
    "'utf-8' codec can't decode byte 0xff in position 0: invalid start byte" in
  oc [] ["oc"; "whoami"] = Undecodable 0 message /\
  run_oc_command oc ["whoami"] initial
  = (Ret (false, message),
     mkWorld [["oc"; "whoami"]]
       [(ERROR, ("Exception while running command: " ++ message)%string)] 0) /\
  fst (run_oc_command oc ["whoami"] initial) <> Ret (true, "").
Proof.
  cbv zeta. split; [reflexivity |]. split; [reflexivity |]. discriminate.
Qed.

(** C4 on two outputs that are not JSON and that the code can receive.
    The query succeeds.  On the literal [NaN], which [json.loads] accepts,
    the decoded value is a float and [data.get] raises [AttributeError]; on
    text nested 2000 brackets deep [json.loads] raises [RecursionError].
    The [except json.JSONDecodeError] clause catches neither: no parse
    error is logged, no list is returned, and the exception reaches the
    caller of [get_users] and [get_groups]. *)
Theorem list_queries_propagate_decoding_errors :
  let nan := oc_table (cluster_lists "NaN") in
  let deep := oc_table (cluster_lists deep_text) in
  let after query := mkWorld [query] [] 0 in
  lenient_loads "NaN" = Decoded (PFloat "nan") /\
  lenient_loads deep_text = LoadError RecursionError /\
  get_users nan lenient_loads initial
    = (Raise AttributeError, after ["oc"; "get"; "users"; "-o"; "json"]) /\
  get_groups nan lenient_loads initial
    = (Raise AttributeError, after ["oc"; "get"; "groups"; "-o"; "json"]) /\
  get_users deep lenient_loads initial
    = (Raise RecursionError, after ["oc"; "get"; "users"; "-o"; "json"]) /\
  get_groups deep lenient_loads initial
    = (Raise RecursionError, after ["oc"; "get"; "groups"; "-o"; "json"]).
Proof. cbv zeta. repeat split; vm_compute; reflexivity. Qed.

(** C8 on two runs the code can take.  [bob] is created and the list of
    the verification exits with status 0.  When it prints an object whose
    [items] is [null], [get_users] returns [None] and iterating it raises
    [TypeError]; when it prints a list that begins with a number and then
    shows [bob], the test of the first entry raises [AttributeError]
    although a user named [bob] is listed.  Nothing catches either: the
    run ends after "Successfully created" with neither the "Verified" line
    nor the "not found" warning. *)
Theorem create_user_off_schema_relist :
  let run text :=
    main (oc_table (cluster_relist text)) lenient_loads str_plain
      (create_bob None) initial in
  let made :=
    [["oc"; "whoami"]; ["oc"; "project"];
     ["oc"; "create"; "user"; "bob"];
     ["oc"; "get"; "users"; "-o"; "json"]] in
  let logged :=
    [(INFO, "Connected to OpenShift. Current project: Using project default");
     (INFO, "Creating user 'bob'...");
     (INFO, "User 'bob' created successfully");
     (INFO, "Successfully created user 'bob'")] in
  lenient_loads null_items_text = Decoded (PDict [("items", PNone)]) /\
  run null_items_text = (Raise TypeError, mkWorld made logged 0) /\
  lenient_loads number_first_text = Decoded number_first_listing /\
  Exists (named "bob")
    [PInt 5; PDict [("metadata", PDict [("name", PStr "bob")])]] /\
  run number_first_text = (Raise AttributeError, mkWorld made logged 0).
Proof.
  cbv zeta. split; [reflexivity |]. split; [reflexivity |].
  split; [reflexivity |]. split; [| reflexivity].
  apply Exists_cons_tl, Exists_cons_hd.
  exists [("metadata", PDict [("name", PStr "bob")])], [("name", PStr "bob")].
  repeat split.
Qed.
